(** * Picaser multi-temporal analyser: a shallow embedding of
      [analizador_multitemporal_picaser] (src/multi_fits_analyzer.py)

    Scalars are IEEE-754 binary64 values (Rocq's primitive [float], the
    type behind numpy's float64).  A frame is a 2-D numpy array, as in the
    data model of the specification.  Printing is not modelled.  The
    external numeric routines the analyser calls but does not define
    (the FITS loader, scipy's [gaussian_filter], [np.std], Python's
    [round], the clock and pandas' row ordering) are parameters of the
    development; numpy's broadcasting subtraction, [np.abs], the
    comparison, [np.where] and the pieces of pandas' DataFrame that the
    analyser touches are written out. *)

From Stdlib Require Import Floats ZArith Arith Bool List String Ascii Lia.
From Stdlib Require Import Permutation Sorted FinFun.
From Stdlib Require Import Decimal DecimalNat DecimalString.
Import ListNotations.

Set Implicit Arguments.

(** ** Python exceptions and the error monad of a [try] block *)

(** The exceptions that can reach the analyser's [except Exception]. *)
Inductive PyException : Type :=
| LoaderError (msg : string)                 (* anything fits.open(...)[0].data.astype raises *)
| ValueError_broadcast (s1 s2 : nat * nat)   (* numpy: operands could not be broadcast *)
| KeyError (key : string).                   (* pandas: missing column label *)

(** [str(n)] for a non-negative Python int. *)
Definition str_nat (n : nat) : string := NilEmpty.string_of_uint (Nat.to_uint n).

Definition str_shape (s : nat * nat) : string :=
  ("(" ++ str_nat (fst s) ++ "," ++ str_nat (snd s) ++ ")")%string.

(** [str(e)], as interpolated by the f-string of the [except] clause. *)
Definition str_exc (e : PyException) : string :=
  match e with
  | LoaderError msg => msg
  | ValueError_broadcast s1 s2 =>
      ("operands could not be broadcast together with shapes "
         ++ str_shape s1 ++ " " ++ str_shape s2 ++ " ")%string
  | KeyError key => ("'" ++ key ++ "'")%string
  end.

(** A computation that returns or raises. *)
Definition Py (A : Type) : Type := (PyException + A)%type.

Definition raise {A} (e : PyException) : Py A := inl e.
Definition ret {A} (a : A) : Py A := inr a.

Definition es_error {A} (r : Py A) : bool :=
  match r with inl _ => true | inr _ => false end.

(** ** 2-D numpy arrays *)

Record ndarray (A : Type) : Type := mk_ndarray {
  shape : nat * nat;          (* (H, W) *)
  data : list (list A)        (* H rows of W cells, row-major *)
}.

Definition np_get {A} (dflt : A) (a : ndarray A) (y x : nat) : A :=
  nth x (nth y (data a) []) dflt.

(** The array of a given shape whose cell [(y, x)] is [f y x]. *)
Definition np_build {A} (s : nat * nat) (f : nat -> nat -> A) : ndarray A :=
  {| shape := s;
     data := map (fun y => map (fun x => f y x) (seq 0 (snd s))) (seq 0 (fst s)) |}.

Definition fget (a : ndarray float) (y x : nat) : float := np_get 0%float a y x.

(** numpy's broadcasting rule on one axis. *)
Definition broadcast_dim (n m : nat) : option nat :=
  if n =? m then Some n
  else if n =? 1 then Some m
  else if m =? 1 then Some n
  else None.

Definition broadcast_shapes (s1 s2 : nat * nat) : option (nat * nat) :=
  match broadcast_dim (fst s1) (fst s2), broadcast_dim (snd s1) (snd s2) with
  | Some h, Some w => Some (h, w)
  | _, _ => None
  end.

(** The index read on an axis of length [n] when the result index is [i]. *)
Definition bidx (n i : nat) : nat := if n =? 1 then 0 else i.

(** [a - b] on arrays. *)
Definition np_subtract (a b : ndarray float) : Py (ndarray float) :=
  match broadcast_shapes (shape a) (shape b) with
  | None => raise (ValueError_broadcast (shape a) (shape b))
  | Some s =>
      ret (np_build s (fun y x =>
             PrimFloat.sub
               (fget a (bidx (fst (shape a)) y) (bidx (snd (shape a)) x))
               (fget b (bidx (fst (shape b)) y) (bidx (snd (shape b)) x))))
  end.

(** [np.abs(a)]. *)
Definition np_abs (a : ndarray float) : ndarray float :=
  np_build (shape a) (fun y x => PrimFloat.abs (fget a y x)).

(** [a > s] for a scalar [s]: the boolean mask. *)
Definition np_gt (a : ndarray float) (s : float) : ndarray bool :=
  np_build (shape a) (fun y x => PrimFloat.ltb s (fget a y x)).

(** The cells of row [y] that hold [true], scanned left to right. *)
Definition where_row (m : ndarray bool) (y : nat) : list (nat * nat) :=
  map (fun x => (y, x))
      (filter (fun x => np_get false m y x) (seq 0 (snd (shape m)))).

(** [np.where(mask)] on a 2-D mask: the true cells, scanning the rows top
    to bottom, returned as the tuple (row indices, column indices). *)
Definition where_coords (m : ndarray bool) : list (nat * nat) :=
  flat_map (where_row m) (seq 0 (fst (shape m))).

Definition np_where (m : ndarray bool) : list nat * list nat :=
  let coords := where_coords m in
  (map fst coords, map snd coords).

(** ** The slice of pandas the analyser uses *)

(** One record appended to [resultados]. *)
Record Fila : Type := mk_Fila {
  ID : string;
  Coord_X : nat;
  Coord_Y : nat;
  Magnitud_Cambio : float;
  Prometedor : string;
  Firma : string
}.

Record DataFrame : Type := mk_DataFrame {
  columns : list string;
  filas : list Fila
}.

(** [pd.DataFrame(records)]: the columns are the keys of the records, so a
    frame built from no record has no column at all.  [pd.DataFrame()] is
    [pd_DataFrame []]. *)
Definition pd_DataFrame (records : list Fila) : DataFrame :=
  match records with
  | [] => {| columns := []; filas := [] |}
  | _ :: _ =>
      {| columns := ["ID"; "Coord_X"; "Coord_Y"; "Magnitud_Cambio";
                     "Prometedor"; "Firma"]%string;
         filas := records |}
  end.

Definition tiene_columna (df : DataFrame) (label : string) : bool :=
  existsb (String.eqb label) (columns df).

(** [df[label]]: the column as a series, or KeyError. *)
Definition df_getitem {A} (df : DataFrame) (label : string) (campo : Fila -> A)
  : Py (list A) :=
  if tiene_columna df label then ret (map campo (filas df))
  else raise (KeyError label).

(** [series == value]. *)
Definition series_eq (s : list string) (v : string) : list bool :=
  map (fun c => String.eqb c v) s.

(** [df[mask]]: the rows whose mask entry is true, in order. *)
Definition df_mask (df : DataFrame) (mask : list bool) : DataFrame :=
  {| columns := columns df;
     filas := map fst (filter snd (combine (filas df) mask)) |}.

(** ** The result dictionary *)

Record ComparisonResult : Type := mk_ComparisonResult {
  reference_file : string;
  comparison_file : string;
  diferencial : option (ndarray float);
  lista_total : DataFrame;
  lista_prometedores : DataFrame;
  error : option string
}.

(** A [try] body working on the mutable dictionary: it returns or raises,
    and either way leaves the dictionary as mutated so far. *)
Definition M (A : Type) : Type := ComparisonResult -> Py A * ComparisonResult.

Definition mbind {A B} (m : M A) (k : A -> M B) : M B :=
  fun cr =>
    match m cr with
    | (inl e, cr') => (inl e, cr')
    | (inr a, cr') => k a cr'
    end.

Definition lift {A} (r : Py A) : M A := fun cr => (r, cr).

Definition set_diferencial (d : ndarray float) : M unit :=
  fun cr => (ret tt,
    {| reference_file := reference_file cr; comparison_file := comparison_file cr;
       diferencial := Some d; lista_total := lista_total cr;
       lista_prometedores := lista_prometedores cr; error := error cr |}).

Definition set_lista_total (df : DataFrame) : M unit :=
  fun cr => (ret tt,
    {| reference_file := reference_file cr; comparison_file := comparison_file cr;
       diferencial := diferencial cr; lista_total := df;
       lista_prometedores := lista_prometedores cr; error := error cr |}).

Definition set_lista_prometedores (df : DataFrame) : M unit :=
  fun cr => (ret tt,
    {| reference_file := reference_file cr; comparison_file := comparison_file cr;
       diferencial := diferencial cr; lista_total := lista_total cr;
       lista_prometedores := df; error := error cr |}).

Definition set_error (msg : string) (cr : ComparisonResult) : ComparisonResult :=
  {| reference_file := reference_file cr; comparison_file := comparison_file cr;
     diferencial := diferencial cr; lista_total := lista_total cr;
     lista_prometedores := lista_prometedores cr; error := Some msg |}.

(** ** The analyser *)

Section Analizador.

(** [fits.open(path)[0].data.astype(float)]: the decoded frame, or the
    exception the loader raised. *)
Variable fits_open_data : string -> Py (ndarray float).

(** [scipy.ndimage.gaussian_filter(a, sigma=s)]. *)
Variable gaussian_filter : ndarray float -> nat -> ndarray float.

(** [np.std(a)]: with numpy's defaults (no axis, ddof = 0) the population
    standard deviation over all cells. *)
Variable np_std : ndarray float -> float.

(** [round(v, ndigits)] on a float64. *)
Variable py_round : float -> nat -> float.

(** [datetime.now().year]. *)
Variable datetime_now_year : nat.

(** The row order chosen by [sort_values(by='Magnitud_Cambio',
    ascending=False)] (pandas' default sort kind). *)
Variable ordenar_por_magnitud_desc : list Fila -> list Fila.

(** [df.sort_values(by=label, ascending=False)] at the one label the
    analyser sorts by. *)
Definition df_sort_values_desc (df : DataFrame) (label : string) : Py DataFrame :=
  if tiene_columna df label
  then ret {| columns := columns df; filas := ordenar_por_magnitud_desc (filas df) |}
  else raise (KeyError label).

(** Line 63/64: [a - gaussian_filter(a, sigma=15)]. *)
Definition filtro_picaser (a : ndarray float) : Py (ndarray float) :=
  np_subtract a (gaussian_filter a 15).

(** Line 70. *)
Definition umbral_de (diferencial : ndarray float) : float :=
  PrimFloat.mul (np_std diferencial) 5%float.

(** Line 71. *)
Definition puntos_de (diferencial : ndarray float) : list nat * list nat :=
  np_where (np_gt diferencial (umbral_de diferencial)).

(** The body of the classification loop (lines 77-90) at index [j]. *)
Definition clasificar_punto (i : nat) (diferencial : ndarray float)
    (umbral : float) (puntos : list nat * list nat) (j : nat) : Fila :=
  let y := nth j (fst puntos) 0 in
  let x := nth j (snd puntos) 0 in
  let intensidad := fget diferencial y x in
  let es_prometedor :=
    if PrimFloat.ltb (PrimFloat.mul umbral 3%float) intensidad
    then "SÍ"%string else "No"%string in
  {| ID := ("Picaser-Diff-" ++ str_nat i ++ "-" ++ str_nat (j + 1))%string;
     Coord_X := x;
     Coord_Y := y;
     Magnitud_Cambio := py_round intensidad 2;
     Prometedor := es_prometedor;
     Firma := ("PLG-" ++ str_nat datetime_now_year)%string |}.

(** Lines 73-90: [resultados]. *)
Definition clasificar (i : nat) (diferencial : ndarray float)
    (umbral : float) (puntos : list nat * list nat) : list Fila :=
  map (clasificar_punto i diferencial umbral puntos)
      (seq 0 (List.length (fst puntos))).

(** Lines 70-90 on a differential map. *)
Definition resultados_de (i : nat) (diferencial : ndarray float) : list Fila :=
  clasificar i diferencial (umbral_de diferencial) (puntos_de diferencial).

(** Line 93. *)
Definition prometedores_de (df_total : DataFrame) : Py DataFrame :=
  match df_getitem df_total "Prometedor" Prometedor with
  | inl e => raise e
  | inr col => df_sort_values_desc (df_mask df_total (series_eq col "SÍ"))
                                   "Magnitud_Cambio"
  end.

Local Notation "x <- m ;; k" := (mbind m (fun x => k))
  (at level 61, m at next level, right associativity).
Local Notation "m ;;; k" := (mbind m (fun _ => k))
  (at level 61, right associativity).

(** The body of the [try] (lines 59-97). *)
Definition cuerpo_try (i : nat) (comparison_path : string)
    (data_referencia : ndarray float) : M unit :=
  data_comparacion <- lift (fits_open_data comparison_path) ;;
  now_clean <- lift (filtro_picaser data_referencia) ;;
  past_clean <- lift (filtro_picaser data_comparacion) ;;
  resta <- lift (np_subtract now_clean past_clean) ;;
  let diferencial := np_abs resta in
  let resultados := resultados_de i diferencial in
  let df_total := pd_DataFrame resultados in
  df_prometedores <- lift (prometedores_de df_total) ;;
  set_diferencial diferencial ;;;
  set_lista_total df_total ;;;
  set_lista_prometedores df_prometedores.

(** Lines 49-56: the dictionary as initialised. *)
Definition comparison_result_inicial (reference_path comparison_path : string)
  : ComparisonResult :=
  {| reference_file := reference_path;
     comparison_file := comparison_path;
     diferencial := None;
     lista_total := pd_DataFrame [];
     lista_prometedores := pd_DataFrame [];
     error := None |}.

(** The message of line 101. *)
Definition mensaje_error (comparison_path : string) (e : PyException) : string :=
  ("Error durante la comparación con " ++ comparison_path ++ ": "
     ++ str_exc e)%string.

(** One iteration of the loop (lines 47-104): [try], [except], and the
    dictionary that [finally] appends. *)
Definition iteracion (reference_path : string) (data_referencia : ndarray float)
    (i : nat) (comparison_path : string) : ComparisonResult :=
  match cuerpo_try i comparison_path data_referencia
          (comparison_result_inicial reference_path comparison_path) with
  | (inr _, cr) => cr
  | (inl e, cr) => set_error (mensaje_error comparison_path e) cr
  end.

Definition analizador_multitemporal_picaser (fits_file_paths : list string)
  : list ComparisonResult :=
  let all_comparisons_results := [] in
  if match fits_file_paths with [] => true | _ :: _ => false end
     || (List.length fits_file_paths <? 2)
  then all_comparisons_results
  else
    let reference_path := nth 0 fits_file_paths ""%string in
    match fits_open_data reference_path with
    | inl _ => all_comparisons_results
    | inr data_referencia =>
        fold_left
          (fun acc i =>
             acc ++ [iteracion reference_path data_referencia i
                       (nth i fits_file_paths ""%string)])
          (seq 1 (List.length fits_file_paths - 1))
          all_comparisons_results
    end.

(** The differential map of a pairing (lines 63-68). *)
Definition diferencial_de (data_referencia data_comparacion : ndarray float)
  : Py (ndarray float) :=
  match filtro_picaser data_referencia with
  | inl e => raise e
  | inr now_clean =>
      match filtro_picaser data_comparacion with
      | inl e => raise e
      | inr past_clean =>
          match np_subtract now_clean past_clean with
          | inl e => raise e
          | inr resta => ret (np_abs resta)
          end
      end
  end.

(** What the [try] body computes before it touches the dictionary. *)
Definition calculo (i : nat) (comparison_path : string)
    (data_referencia : ndarray float)
  : Py (ndarray float * DataFrame * DataFrame) :=
  match fits_open_data comparison_path with
  | inl e => raise e
  | inr data_comparacion =>
      match diferencial_de data_referencia data_comparacion with
      | inl e => raise e
      | inr d =>
          match prometedores_de (pd_DataFrame (resultados_de i d)) with
          | inl e => raise e
          | inr dfp => ret (d, pd_DataFrame (resultados_de i d), dfp)
          end
      end
  end.

End Analizador.

(** ** The order that [sort_values(ascending=False)] establishes *)

(** [a] may stand before [b] in a descending column with NaN last. *)
Definition mag_desc (a b : Fila) : bool :=
  PrimFloat.leb (Magnitud_Cambio b) (Magnitud_Cambio a)
  || PrimFloat.is_nan (Magnitud_Cambio b).

(** Row-major order on coordinates [(y, x)]. *)
Definition row_major_lt (p q : nat * nat) : Prop :=
  fst p < fst q \/ (fst p = fst q /\ snd p < snd q).

Definition coordenadas (df : DataFrame) : list (nat * nat) :=
  map (fun f => (Coord_Y f, Coord_X f)) (filas df).

(** ** A reference interpretation of the external routines

    Used to run the analyser on concrete frames.  [np_std] and [py_round]
    follow numpy's algorithms in binary64 (mean, squared deviations, mean,
    square root; scale, round half to even, unscale).  The smoothing
    routine is the flat limit of a Gaussian whose scale exceeds the frame:
    every cell gets the mean of the frame.  Files are an association list
    from path to decoded frame. *)
Module Ref.

Definition suma (l : list float) : float := fold_left PrimFloat.add l 0%float.

Definition cuenta (l : list float) : float :=
  fold_left (fun n _ => PrimFloat.add n 1%float) l 0%float.

Definition media (a : ndarray float) : float :=
  let xs := List.concat (data a) in PrimFloat.div (suma xs) (cuenta xs).

Definition np_std (a : ndarray float) : float :=
  let xs := List.concat (data a) in
  let m := media a in
  let x2 := map (fun x => PrimFloat.mul (PrimFloat.sub x m) (PrimFloat.sub x m)) xs in
  PrimFloat.sqrt (PrimFloat.div (suma x2) (cuenta xs)).

Definition two52 : float := 4503599627370496%float.

(** Round to the nearest integer, ties to even. *)
Definition rint (v : float) : float :=
  if PrimFloat.leb 0%float v then
    if PrimFloat.ltb v two52
    then PrimFloat.sub (PrimFloat.add v two52) two52 else v
  else
    if PrimFloat.ltb (PrimFloat.opp two52) v
    then PrimFloat.add (PrimFloat.sub v two52) two52 else v.

Fixpoint pow10 (n : nat) : float :=
  match n with
  | 0 => 1%float
  | S k => PrimFloat.mul 10%float (pow10 k)
  end.

Definition py_round (v : float) (ndigits : nat) : float :=
  PrimFloat.div (rint (PrimFloat.mul v (pow10 ndigits))) (pow10 ndigits).

Definition gaussian_filter (a : ndarray float) (sigma : nat) : ndarray float :=
  np_build (shape a) (fun _ _ => media a).

Fixpoint insertar (f : Fila) (l : list Fila) : list Fila :=
  match l with
  | [] => [f]
  | g :: t => if mag_desc f g then f :: g :: t else g :: insertar f t
  end.

Definition ordenar_por_magnitud_desc (l : list Fila) : list Fila :=
  fold_right insertar [] l.

Definition fits_open_data (archivos : list (string * ndarray float))
    (path : string) : Py (ndarray float) :=
  match find (fun e => String.eqb (fst e) path) archivos with
  | Some e => ret (snd e)
  | None =>
      raise (LoaderError ("[Errno 2] No such file or directory: '" ++ path ++ "'"))
  end.

(** The analyser over a directory of decoded frames. *)
Definition analizador (archivos : list (string * ndarray float))
    (year : nat) (paths : list string) : list ComparisonResult :=
  analizador_multitemporal_picaser (fits_open_data archivos) gaussian_filter
    np_std py_round year ordenar_por_magnitud_desc paths.

Definition frame (rows : list (list float)) : ndarray float :=
  {| shape := (List.length rows, List.length (hd [] rows)); data := rows |}.

End Ref.

(** Frames and maps used in the examples. *)
Definition frame_cero : ndarray float := Ref.frame [[0; 0]]%float.
Definition frame_1_3 : ndarray float := Ref.frame [[1; 3]]%float.
Definition frame_1x3 : ndarray float := Ref.frame [[1; 2; 3]]%float.
Definition frame_1x1 : ndarray float := Ref.frame [[1]]%float.

(** A differential map whose first cell lies strictly between the promising
    cutoff and the next hundredth below it: its standard deviation is
    137/2048, so the threshold is 685/2048 and the cutoff 2055/2048. *)
Definition mapa_frontera : ndarray float :=
  Ref.frame [[1.00390625; 0.8701171875]]%float.

Definition archivos_demo : list (string * ndarray float) :=
  [("ref.fits", frame_cero); ("igual.fits", frame_cero);
   ("nueva.fits", frame_1_3); ("ancha.fits", frame_1x3)]%string.


(** A run whose pairings end in four different ways: no candidate, two
    candidates, incompatible shapes, missing file. *)
Definition paths_demo : list string :=
  ["ref.fits"; "igual.fits"; "nueva.fits"; "ancha.fits"; "nada.fits"]%string.


(** The dictionary of the pairing with "nueva.fits" in that run. *)
Definition resultado_nueva : ComparisonResult :=
  Eval vm_compute in
    nth 1 (Ref.analizador archivos_demo 2026 paths_demo)
          (comparison_result_inicial ""%string ""%string).

(** * Figures, report and clean-up

    The functions that consume the analyser's list:
    [generate_picaser_lupas], [generate_multi_comparison_pdf],
    [cleanup_temporary_files] and the main block.  They act on the working
    directory and on matplotlib's current figure; the model keeps the names
    that exist, which of them are directories, which of them the process
    may not delete and, for each [savefig], what was drawn (the image array
    and the title).  matplotlib's and reportlab's calls are taken to
    succeed, except [imshow] of [None] and [doc.build], whose outcome is a
    parameter; a name that [savefig] has written is from then on a regular
    file of the process, in a directory where it creates and deletes
    files.  Paths are POSIX paths. *)

(** What [plt.savefig] writes: the array given to [imshow] and the title. *)
Record Figura : Type := mk_Figura {
  imagen : ndarray float;
  titulo : string
}.

Record Mundo : Type := mk_Mundo {
  archivos : list string;                 (* the names that exist *)
  directorios : list string;              (* the names that are directories *)
  protegidos : list string;               (* the names the process may not delete *)
  figuras : list (string * Figura)        (* every savefig so far, oldest first *)
}.

Inductive ExcInforme : Type :=
| DePandas (e : PyException)              (* KeyError on a row label *)
| AttributeError_NoneType (attr : string) (* None.shape *)
| TypeError_imshow                        (* plt.imshow(None) *)
| FileNotFoundError (path : string)       (* os.remove of a missing file *)
| IsADirectoryError (path : string)       (* os.remove of a directory *)
| PermissionError (path : string)         (* os.remove of a protected name *)
| EOFError                                (* input() at end of input *)
| ErrorDeBuild.                           (* doc.build raised *)

(** A computation on the world that returns or raises. *)
Definition Ef (A : Type) : Type := Mundo -> (ExcInforme + A) * Mundo.

Definition eret {A} (a : A) : Ef A := fun w => (inr a, w).
Definition eraise {A} (e : ExcInforme) : Ef A := fun w => (inl e, w).

Definition ebind {A B} (m : Ef A) (k : A -> Ef B) : Ef B :=
  fun w =>
    match m w with
    | (inl e, w') => (inl e, w')
    | (inr a, w') => k a w'
    end.

(** A [for] loop whose body yields one value per element. *)
Fixpoint recorrer {A B} (l : list A) (cuerpo : A -> Ef B) : Ef (list B) :=
  match l with
  | [] => eret []
  | a :: t =>
      ebind (cuerpo a) (fun b =>
      ebind (recorrer t cuerpo) (fun bs => eret (b :: bs)))
  end.

Definition os_path_exists (w : Mundo) (path : string) : bool :=
  existsb (String.eqb path) (archivos w).

(** [plt.savefig(filename)] followed by [plt.close()]: the call is taken to
    succeed, so that [filename] is afterwards a regular file that the
    process has written and may delete. *)
Definition plt_savefig (filename : string) (fig : Figura) : Ef unit :=
  fun w =>
    (inr tt,
     {| archivos := if os_path_exists w filename then archivos w
                    else filename :: archivos w;
        directorios :=
          filter (fun q => negb (String.eqb filename q)) (directorios w);
        protegidos :=
          filter (fun q => negb (String.eqb filename q)) (protegidos w);
        figuras := figuras w ++ [(filename, fig)] |}).

(** [os.remove(path)]: it removes a file, and raises on a name that does
    not exist, that the process may not delete, or that is a directory; a
    call that raises removes nothing. *)
Definition os_remove (path : string) : Ef unit :=
  fun w =>
    if os_path_exists w path
    then
      if existsb (String.eqb path) (protegidos w)
      then (inl (PermissionError path), w)
      else if existsb (String.eqb path) (directorios w)
      then (inl (IsADirectoryError path), w)
      else (inr tt,
            {| archivos := filter (fun q => negb (String.eqb path q)) (archivos w);
               directorios := directorios w;
               protegidos := protegidos w;
               figuras := figuras w |})
    else (inl (FileNotFoundError path), w).

(** [enumerate(l)]. *)
Definition enumerate {A} (l : list A) : list (nat * A) :=
  combine (seq 0 (List.length l)) l.

(** Truth value of [comparison_result['error']]: [None] and the empty string
    are false. *)
Definition es_verdadero (e : option string) : bool :=
  match e with
  | None => false
  | Some s => negb (String.eqb s "")
  end.

(** [df.empty]: some axis has length 0. *)
Definition df_empty (df : DataFrame) : bool :=
  (List.length (filas df) =? 0) || (List.length (columns df) =? 0).

(** [row[label]] for a row yielded by [df.iterrows()]. *)
Definition row_getitem {A} (df : DataFrame) (label : string) (campo : Fila -> A)
    (row : Fila) : Ef A :=
  if tiene_columna df label then eret (campo row)
  else eraise (DePandas (KeyError label)).

Fixpoint contiene_barra (p : string) : bool :=
  match p with
  | EmptyString => false
  | String c rest => Ascii.eqb c "/" || contiene_barra rest
  end.

(** [os.path.basename(p)]: what follows the last slash. *)
Fixpoint os_path_basename (p : string) : string :=
  match p with
  | EmptyString => EmptyString
  | String c rest =>
      if contiene_barra rest then os_path_basename rest
      else if Ascii.eqb c "/" then rest
      else String c rest
  end.

(** [s.replace(old, '')] for a non-empty [old]: the occurrences of [old]
    found scanning left to right are dropped; [skip] counts the characters
    of the current occurrence still to drop. *)
Fixpoint replace_aux (old : string) (skip : nat) (s : string) : string :=
  match s with
  | EmptyString => EmptyString
  | String c rest =>
      match skip with
      | S k => replace_aux old k rest
      | 0 =>
          if prefix old s then replace_aux old (String.length old - 1) rest
          else String c (replace_aux old 0 rest)
      end
  end.

(** [os.path.basename(path).replace('.FITS', '')]. *)
Definition nombre_base (path : string) : string :=
  replace_aux ".FITS" 0 (os_path_basename path).

(** [a[r0:r1, c0:c1]] for non-negative bounds: the bounds are clipped to the
    shape, an inverted range is empty. *)
Definition np_slice (a : ndarray float) (r0 r1 c0 c1 : nat) : ndarray float :=
  let H := fst (shape a) in
  let W := snd (shape a) in
  np_build (Nat.min r1 H - Nat.min r0 H, Nat.min c1 W - Nat.min c0 W)
           (fun r c => fget a (r0 + r) (c0 + c)).

Definition salto : string := String "010"%char EmptyString.

(** ** [generate_picaser_lupas] *)

(** The body of the inner loop (lines 131-148) for one promising row. *)
Definition lupa_de_fila (comp_idx : nat) (ref_name comp_name : string)
    (diferencial_current : option (ndarray float))
    (lista_prometedores_current : DataFrame) (row : Fila) : Ef string :=
  ebind (row_getitem lista_prometedores_current "Coord_X" Coord_X row) (fun x =>
  ebind (row_getitem lista_prometedores_current "Coord_Y" Coord_Y row) (fun y =>
  ebind (row_getitem lista_prometedores_current "ID" ID row) (fun candidate_id =>
  match diferencial_current with
  | None => eraise (AttributeError_NoneType "shape")
  | Some d =>
      let zoom_diff :=
        np_slice d (y - 15) (Nat.min (fst (shape d)) (y + 15))
                   (x - 15) (Nat.min (snd (shape d)) (x + 15)) in
      let title :=
        ("HALLAZGO " ++ candidate_id ++ salto
           ++ "(" ++ ref_name ++ " vs " ++ comp_name ++ ")")%string in
      let filename :=
        ("lupa_picaser_comp" ++ str_nat (comp_idx + 1) ++ "_" ++ ref_name
           ++ "_vs_" ++ comp_name ++ "_" ++ candidate_id ++ ".png")%string in
      ebind (plt_savefig filename {| imagen := zoom_diff; titulo := title |})
            (fun _ => eret filename)
  end))).

(** The body of the outer loop (lines 113-148): the names appended while
    handling one dictionary. *)
Definition lupas_de_comparacion (entrada : nat * ComparisonResult)
  : Ef (list string) :=
  let comp_idx := fst entrada in
  let comparison_result := snd entrada in
  if es_verdadero (error comparison_result) then eret []
  else
    let ref_name := nombre_base (reference_file comparison_result) in
    let comp_name := nombre_base (comparison_file comparison_result) in
    let diferencial_current := diferencial comparison_result in
    let lista_prometedores_current := lista_prometedores comparison_result in
    if df_empty lista_prometedores_current then eret []
    else
      recorrer (filas lista_prometedores_current)
        (lupa_de_fila comp_idx ref_name comp_name diferencial_current
           lista_prometedores_current).

Definition generate_picaser_lupas (all_comparisons_results : list ComparisonResult)
  : Ef (list string) :=
  ebind (recorrer (enumerate all_comparisons_results) lupas_de_comparacion)
        (fun por_comparacion => eret (List.concat por_comparacion)).

(** ** [cleanup_temporary_files] *)

Definition cleanup_temporary_files (lupa_files map_files : list string)
    (pdf_file : string) : Ef unit :=
  let all_temp_files := lupa_files ++ map_files in
  ebind (recorrer all_temp_files
           (fun f => fun w => if os_path_exists w f then os_remove f w
                              else eret tt w))
        (fun _ => eret tt).

(** ** [generate_multi_comparison_pdf] and the main block *)

(** reportlab's [inch] and [LETTER] (points). *)
Definition inch : float := 72%float.
Definition LETTER : float * float := (612%float, 792%float).

(** A cell of the data handed to a reportlab [Table]. *)
Inductive Celda : Type :=
| CStr (s : string)
| CInt (n : nat)
| CFloat (v : float).

(** The flowables the report is made of; a style is named by its key in
    the sample style sheet.  Every table gets the same [table_style]. *)
Inductive Flowable : Type :=
| Paragraph (text : string) (style : string)
| Spacer (width height : float)
| Image (filename : string) (width height : float)
| Table (data : list (list Celda)) (_width : float) (_argW : option (list float)).

Fixpoint float_of_nat (n : nat) : float :=
  match n with
  | 0 => 0%float
  | S k => PrimFloat.add (float_of_nat k) 1%float
  end.

(** The value of a row under a column label. *)
Definition celda (row : Fila) (label : string) : Celda :=
  if String.eqb label "ID" then CStr (ID row)
  else if String.eqb label "Coord_X" then CInt (Coord_X row)
  else if String.eqb label "Coord_Y" then CInt (Coord_Y row)
  else if String.eqb label "Magnitud_Cambio" then CFloat (Magnitud_Cambio row)
  else if String.eqb label "Prometedor" then CStr (Prometedor row)
  else CStr (Firma row).

(** [[df.columns.values.tolist()] + df.values.tolist()]. *)
Definition datos_para_pdf (df : DataFrame) : list (list Celda) :=
  map CStr (columns df) :: map (fun row => map (celda row) (columns df)) (filas df).

(** Lines 229-234 (and 240-245): the table with its width attributes. *)
Definition tabla_de (df : DataFrame) : Flowable :=
  let data := datos_para_pdf df in
  let ancho := PrimFloat.sub (fst LETTER) (PrimFloat.mul 2%float inch) in
  let n := List.length (columns df) in
  Table data ancho
    (if n =? 0 then None
     else Some (repeat (PrimFloat.div ancho (float_of_nat n)) n)).

(** 0.2 and 0.1 as binary64 literals. *)
Definition f0_2 : float := 0x1.999999999999ap-3%float.
Definition f0_1 : float := 0x1.999999999999ap-4%float.

Section Informe.

Variable fits_open_data : string -> Py (ndarray float).
Variable gaussian_filter : ndarray float -> nat -> ndarray float.
Variable np_std : ndarray float -> float.
Variable py_round : float -> nat -> float.
Variable datetime_now_year : nat.
Variable ordenar_por_magnitud_desc : list Fila -> list Fila.

(** [f"{v:.2f}"]. *)
Variable fmt_2f : float -> string.

(** Whether [doc.build(story)] completes. *)
Variable doc_build_ok : list Flowable -> bool.

Local Notation "x <- m ;; k" := (ebind m (fun x => k))
  (at level 61, m at next level, right associativity).

(** Lines 186-189: the section of a failed pairing. *)
Definition seccion_de_error (comp_idx : nat) (comparison_result : ComparisonResult)
  : list Flowable :=
  [Paragraph
     ("<br/><br/><b>ERROR en Comparación " ++ str_nat (comp_idx + 1) ++ ": "
        ++ os_path_basename (reference_file comparison_result) ++ " vs "
        ++ os_path_basename (comparison_file comparison_result) ++ "</b>")%string
     "h2";
   Paragraph
     ("<i>" ++ match error comparison_result with Some s => s | None => "None" end
        ++ "</i>")%string
     "Normal";
   Spacer 1%float (PrimFloat.mul f0_2 inch)].

(** Lines 251-262: the entry of one promising row. *)
Definition vista_de_fila (comp_idx : nat) (ref_name comp_name : string)
    (lista_prometedores_current : DataFrame) (row : Fila) : Ef (list Flowable) :=
  candidate_id <- row_getitem lista_prometedores_current "ID" ID row ;;
  let lupa_filename :=
    ("lupa_picaser_comp" ++ str_nat (comp_idx + 1) ++ "_" ++ ref_name
       ++ "_vs_" ++ comp_name ++ "_" ++ candidate_id ++ ".png")%string in
  fun w =>
    if os_path_exists w lupa_filename then
      (magnitud <- row_getitem lista_prometedores_current "Magnitud_Cambio"
                     Magnitud_Cambio row ;;
       eret [Paragraph
               ("<i>Candidato: " ++ candidate_id ++ " - Intensidad: "
                  ++ fmt_2f magnitud ++ "</i>")%string
               "Normal";
             Image lupa_filename (PrimFloat.mul 3%float inch)
                   (PrimFloat.mul 3%float inch);
             Spacer 1%float (PrimFloat.mul f0_1 inch)]) w
    else
      eret [Paragraph
              ("<i>Error: Imagen '" ++ lupa_filename
                 ++ "' no encontrada para el candidato " ++ candidate_id
                 ++ ".</i>")%string
              "Normal"] w.

(** The columns that lines 207-208 read when the promising table is not
    empty. *)
Definition columnas_del_scatter (df : DataFrame) : Ef unit :=
  if df_empty df then eret tt
  else if negb (tiene_columna df "Magnitud_Cambio")
  then eraise (DePandas (KeyError "Magnitud_Cambio"))
  else if negb (tiene_columna df "Coord_X")
  then eraise (DePandas (KeyError "Coord_X"))
  else if negb (tiene_columna df "Coord_Y")
  then eraise (DePandas (KeyError "Coord_Y"))
  else eret tt.

(** Lines 191-262: the section of a pairing without error. *)
Definition seccion_de_comparacion (comp_idx : nat)
    (comparison_result : ComparisonResult) : Ef (list Flowable) :=
  let ref_name := nombre_base (reference_file comparison_result) in
  let comp_name := nombre_base (comparison_file comparison_result) in
  let cabecera :=
    [Paragraph
       ("<br/><br/><b>SECCIÓN " ++ str_nat (comp_idx + 1) ++ ": " ++ ref_name
          ++ " vs " ++ comp_name ++ "</b>")%string
       "h2";
     Spacer 1%float (PrimFloat.mul f0_1 inch)] in
  let mapa_diferencial_filename :=
    ("mapa_diferencial_comp" ++ str_nat (comp_idx + 1) ++ "_" ++ ref_name
       ++ "_vs_" ++ comp_name ++ ".png")%string in
  match diferencial comparison_result with
  | None => eraise TypeError_imshow
  | Some d =>
      let lista_prometedores_current := lista_prometedores comparison_result in
      _ <- columnas_del_scatter lista_prometedores_current ;;
      _ <- plt_savefig mapa_diferencial_filename
             {| imagen := d;
                titulo := ("MAPA DE DIFERENCIAS TEMPORALES" ++ salto ++ "("
                             ++ ref_name ++ " vs " ++ comp_name ++ ")")%string |} ;;
      mapa <- (fun w =>
                 eret
                   (if os_path_exists w mapa_diferencial_filename then
                      [Paragraph "<b>Mapa de Diferencias Temporales</b>" "h3";
                       Image mapa_diferencial_filename
                         (PrimFloat.sub (fst LETTER) (PrimFloat.mul 2%float inch))
                         (PrimFloat.sub (snd LETTER) (PrimFloat.mul 3%float inch));
                       Spacer 1%float (PrimFloat.mul f0_2 inch)]
                    else
                      [Paragraph
                         ("<i>Error: Imagen '" ++ mapa_diferencial_filename
                            ++ "' no encontrada.</i>")%string
                         "Normal"]) w) ;;
      let tablas :=
        [Paragraph "<b>Lista Completa de Cambios Detectados</b>" "h3";
         tabla_de (lista_total comparison_result);
         Spacer 1%float (PrimFloat.mul f0_2 inch);
         Paragraph "<b>Candidatos Picaser de Alta Prioridad</b>" "h3";
         tabla_de lista_prometedores_current;
         Spacer 1%float (PrimFloat.mul f0_2 inch);
         Paragraph "<b>Vistas Detalladas de Lupa Picaser</b>" "h3"] in
      vistas <- recorrer (filas lista_prometedores_current)
                  (vista_de_fila comp_idx ref_name comp_name
                     lista_prometedores_current) ;;
      eret (cabecera ++ mapa ++ tablas ++ List.concat vistas)
  end.

(** The body of the loop of lines 184-262. *)
Definition seccion (entrada : nat * ComparisonResult) : Ef (list Flowable) :=
  if es_verdadero (error (snd entrada))
  then eret (seccion_de_error (fst entrada) (snd entrada))
  else seccion_de_comparacion (fst entrada) (snd entrada).

(** Lines 166-172. *)
Definition portada : list Flowable :=
  [Paragraph "INFORME DEL SISTEMA DE DETECCIÓN PICASER (MULTI-COMPARACIÓN)" "h1";
   Paragraph "<i>Investigadora Principal: Pilar López Giménez</i>" "h2";
   Spacer 1%float (PrimFloat.mul f0_2 inch);
   Paragraph "Este informe presenta los resultados del análisis diferencial temporal de múltiples comparaciones de imágenes FITS, aplicando el sistema Picaser para la detección de cambios y anomalías. Cada sección detalla una comparación específica, incluyendo su mapa diferencial, tablas de hallazgos y vistas detalladas de los candidatos más prometedores." "Normal";
   Spacer 1%float (PrimFloat.mul f0_2 inch)].

(** [doc.build(story)]: writes the document, a regular file afterwards, or
    raises. *)
Definition doc_build (pdf_output_filename : string) (story : list Flowable)
  : Ef unit :=
  fun w =>
    if doc_build_ok story
    then (inr tt,
          {| archivos := if os_path_exists w pdf_output_filename then archivos w
                         else pdf_output_filename :: archivos w;
             directorios :=
               filter (fun q => negb (String.eqb pdf_output_filename q))
                      (directorios w);
             protegidos := protegidos w;
             figuras := figuras w |})
    else (inl ErrorDeBuild, w).

(** The story handed to [doc.build]. *)
Definition story_multi (all_comparisons_results : list ComparisonResult)
  : Ef (list Flowable) :=
  secciones <- recorrer (enumerate all_comparisons_results) seccion ;;
  eret (portada ++ List.concat secciones).

Definition generate_multi_comparison_pdf
    (all_comparisons_results : list ComparisonResult)
    (lupa_picaser_filenames : list string) (pdf_output_filename : string)
  : Ef unit :=
  story <- story_multi all_comparisons_results ;;
  doc_build pdf_output_filename story.

(** Lines 323-328: the names of the maps, recomputed for the clean-up. *)
Definition mapa_diferencial_filenames (all_comparisons_results : list ComparisonResult)
  : list string :=
  flat_map
    (fun entrada : nat * ComparisonResult =>
       if negb (es_verdadero (error (snd entrada))) then
         [("mapa_diferencial_comp" ++ str_nat (fst entrada + 1) ++ "_"
             ++ nombre_base (reference_file (snd entrada)) ++ "_vs_"
             ++ nombre_base (comparison_file (snd entrada)) ++ ".png")%string]
       else [])
    (enumerate all_comparisons_results).

Definition final_pdf_name : string := "Informe_Picaser_MultiComparacion_Final.pdf".

(** Lines 312-331: analysis, figures, report, clean-up. *)
Definition tras_la_entrada (fits_file_paths_input : list string) : Ef unit :=
  let all_comparisons_results :=
    analizador_multitemporal_picaser fits_open_data gaussian_filter np_std
      py_round datetime_now_year ordenar_por_magnitud_desc fits_file_paths_input in
  lupa_picaser_filenames <- generate_picaser_lupas all_comparisons_results ;;
  _ <- generate_multi_comparison_pdf all_comparisons_results
         lupa_picaser_filenames final_pdf_name ;;
  cleanup_temporary_files lupa_picaser_filenames
    (mapa_diferencial_filenames all_comparisons_results) final_pdf_name.

(** Lines 289-303: the input loop over the lines typed; it returns the
    paths collected and the lines not read. *)
Fixpoint leer_rutas (w : Mundo) (lineas : list string)
    (fits_file_paths_input : list string)
  : ExcInforme + (list string * list string) :=
  match lineas with
  | [] => inl EOFError
  | file_path :: resto =>
      if String.eqb file_path "" then
        if List.length fits_file_paths_input <? 2
        then leer_rutas w resto fits_file_paths_input
        else inr (fits_file_paths_input, resto)
      else if os_path_exists w file_path
      then leer_rutas w resto (fits_file_paths_input ++ [file_path])
      else leer_rutas w resto fits_file_paths_input
  end.

(** The main block on the lines typed by the user. *)
Definition principal (lineas : list string) : Ef unit :=
  fun w =>
    match leer_rutas w lineas [] with
    | inl e => (inl e, w)
    | inr (fits_file_paths_input, _) =>
        if List.length fits_file_paths_input <? 2 then (inr tt, w)
        else tras_la_entrada fits_file_paths_input w
    end.

End Informe.

(** ** What the figures and the report are expected to leave behind *)

Definition esta (f : string) (l : list string) : bool :=
  existsb (String.eqb f) l.

(** The names [os.remove] accepts when they exist: neither a directory nor
    a name the process may not delete. *)
Definition borrable (w : Mundo) (f : string) : bool :=
  negb (esta f (protegidos w)) && negb (esta f (directorios w)).

(** The world after one more [savefig]. *)
Definition guardar (w : Mundo) (e : string * Figura) : Mundo :=
  snd (plt_savefig (fst e) (snd e) w).

Definition guardar_todo (figs : list (string * Figura)) (w : Mundo) : Mundo :=
  fold_left guardar figs w.

Definition seis_columnas : list string :=
  ["ID"; "Coord_X"; "Coord_Y"; "Magnitud_Cambio"; "Prometedor"; "Firma"]%string.

(** The window of at most 30 x 30 cells around a row's coordinates. *)
Definition zoom_de (d : ndarray float) (row : Fila) : ndarray float :=
  np_slice d (Coord_Y row - 15) (Nat.min (fst (shape d)) (Coord_Y row + 15))
             (Coord_X row - 15) (Nat.min (snd (shape d)) (Coord_X row + 15)).

Definition nombre_lupa (comp_idx : nat) (r : ComparisonResult) (row : Fila) : string :=
  ("lupa_picaser_comp" ++ str_nat (comp_idx + 1) ++ "_"
     ++ nombre_base (reference_file r) ++ "_vs_"
     ++ nombre_base (comparison_file r) ++ "_" ++ ID row ++ ".png")%string.

Definition figura_lupa (comp_idx : nat) (r : ComparisonResult)
    (d : ndarray float) (row : Fila) : string * Figura :=
  (nombre_lupa comp_idx r row,
   {| imagen := zoom_de d row;
      titulo := ("HALLAZGO " ++ ID row ++ salto ++ "("
                   ++ nombre_base (reference_file r) ++ " vs "
                   ++ nombre_base (comparison_file r) ++ ")")%string |}).

(** The figures one dictionary contributes to the magnifier step. *)
Definition lupas_de (entrada : nat * ComparisonResult) : list (string * Figura) :=
  if es_verdadero (error (snd entrada)) then []
  else
    match diferencial (snd entrada) with
    | None => []
    | Some d =>
        map (figura_lupa (fst entrada) (snd entrada) d)
            (filas (lista_prometedores (snd entrada)))
    end.

Definition nombre_mapa (comp_idx : nat) (r : ComparisonResult) : string :=
  ("mapa_diferencial_comp" ++ str_nat (comp_idx + 1) ++ "_"
     ++ nombre_base (reference_file r) ++ "_vs_"
     ++ nombre_base (comparison_file r) ++ ".png")%string.

(** The figure one dictionary contributes to the report step. *)
Definition mapas_de (entrada : nat * ComparisonResult) : list (string * Figura) :=
  if es_verdadero (error (snd entrada)) then []
  else
    match diferencial (snd entrada) with
    | None => []
    | Some d =>
        [(nombre_mapa (fst entrada) (snd entrada),
          {| imagen := d;
             titulo := ("MAPA DE DIFERENCIAS TEMPORALES" ++ salto ++ "("
                          ++ nombre_base (reference_file (snd entrada)) ++ " vs "
                          ++ nombre_base (comparison_file (snd entrada)) ++ ")")%string |})]
    end.

(** A paragraph that reports a missing image (lines 225 and 262). *)
Definition es_aviso (f : Flowable) : bool :=
  match f with
  | Paragraph text _ => prefix "<i>Error: Imagen '" text
  | _ => false
  end.

(** A dictionary as the analyser leaves it: failed with the message of
    line 101, or complete with a differential and a promising table that
    has the six columns. *)
Definition de_analizador (r : ComparisonResult) : Prop :=
  (exists pk e, error r = Some (mensaje_error pk e)) \/
  (error r = None /\ (exists d, diferencial r = Some d) /\
   columns (lista_prometedores r) = seis_columnas).

(** What a section of the report owes its pairing: no notice of a missing
    image, and the message of a failed pairing. *)
Definition seccion_en_regla (entrada : nat * ComparisonResult)
    (b : list Flowable) : Prop :=
  forallb (fun f => negb (es_aviso f)) b = true /\
  (forall msg, error (snd entrada) = Some msg ->
     b = [Paragraph
            ("<br/><br/><b>ERROR en Comparación " ++ str_nat (fst entrada + 1)
               ++ ": " ++ os_path_basename (reference_file (snd entrada))
               ++ " vs " ++ os_path_basename (comparison_file (snd entrada))
               ++ "</b>")%string "h2";
          Paragraph ("<i>" ++ msg ++ "</i>")%string "Normal";
          Spacer 1%float (PrimFloat.mul f0_2 inch)]).

(** The PNG files of a run: the magnifier figures and the maps. *)
Definition temporales (rs : list ComparisonResult) : list string :=
  map fst (flat_map lupas_de (enumerate rs)) ++ mapa_diferencial_filenames rs.

(** A line of input that adds a path: not blank, and naming a file that
    exists. *)
Definition ruta_aceptada (w : Mundo) (linea : string) : bool :=
  negb (String.eqb linea "") && os_path_exists w linea.

(** Whether a character occurs in a string. *)
Fixpoint aparece (c : ascii) (s : string) : bool :=
  match s with
  | EmptyString => false
  | String a rest => Ascii.eqb a c || aparece c rest
  end.

(** ** The demonstration run through the figure and report steps *)

(** The working directory before the run. *)
Definition mundo_demo : Mundo :=
  {| archivos := ["ref.fits"; "igual.fits"; "nueva.fits"; "ancha.fits";
                  "notas.txt"]%string;
     directorios := [];
     protegidos := [];
     figuras := [] |}.

(** A directory with two figures left by an earlier run, a sub-directory
    and a file that may not be deleted. *)
Definition mundo_con_directorio : Mundo :=
  {| archivos := ["a.png"; "viejos"; "b.png"; "fijo.png"]%string;
     directorios := ["viejos"]%string;
     protegidos := ["fijo.png"]%string;
     figuras := [] |}.

(** The dictionary of the pairing with "igual.fits" in the demonstration
    run, its differential map for "nueva.fits" and the first promising row
    of that pairing. *)
Definition resultado_igual : ComparisonResult :=
  Eval vm_compute in
    nth 0 (Ref.analizador archivos_demo 2026 paths_demo)
          (comparison_result_inicial ""%string ""%string).

Definition mapa_nueva : ndarray float := Ref.frame [[1; 1]]%float.

Definition fila_nueva : Fila :=
  {| ID := "Picaser-Diff-2-1"; Coord_X := 0; Coord_Y := 0;
     Magnitud_Cambio := 1%float; Prometedor := "SÍ"; Firma := "PLG-2026" |}.

(** [f"{v:.2f}"] on the magnitudes of the demonstration run, all 1.0. *)
Definition fmt_2f_demo (v : float) : string := "1.00".

(** What is typed at the prompt: a blank line too early, a file that does
    not exist, two files that do, the closing blank line. *)
Definition lineas_demo : list string :=
  [""; "ref.fits"; "nada.fits"; "nueva.fits"; ""; "igual.fits"]%string.

(** * Properties *)

(** ** Lists and strings *)

Lemma fold_left_snoc A B (f : B -> A) (l : list B) (acc : list A) :
  fold_left (fun acc i => acc ++ [f i]) l acc = acc ++ map f l.
Proof.
  revert acc; induction l as [|b l IH]; intros acc; simpl.
  - now rewrite app_nil_r.
  - rewrite IH, <- app_assoc. reflexivity.
Qed.

Lemma map_nth_seq_tl A (d : A) (a : A) (l : list A) :
  map (fun i => nth i (a :: l) d) (seq 1 (List.length l)) = l.
Proof.
  rewrite <- seq_shift, map_map. simpl.
  induction l as [|b l IH]; simpl; [reflexivity|].
  f_equal. rewrite <- seq_shift, map_map. exact IH.
Qed.

Lemma map_nth_seq0 A (d : A) (l : list A) :
  map (fun j => nth j l d) (seq 0 (List.length l)) = l.
Proof.
  destruct l as [|a l]; [reflexivity|].
  simpl. f_equal. apply map_nth_seq_tl.
Qed.

Lemma mask_es_filter (p : Fila -> bool) (l : list Fila) :
  map fst (filter snd (combine l (map p l))) = filter p l.
Proof.
  induction l as [|f l IH]; simpl; [reflexivity|].
  destruct (p f); simpl; now rewrite IH.
Qed.

Lemma str_nat_inj n m : str_nat n = str_nat m -> n = m.
Proof.
  unfold str_nat. intros H.
  apply (f_equal NilEmpty.uint_of_string) in H.
  rewrite !NilEmpty.usu in H. injection H as H.
  apply (f_equal Nat.of_uint) in H.
  now rewrite !DecimalNat.Unsigned.of_to in H.
Qed.

Lemma append_inj_l (p s t : string) : (p ++ s = p ++ t)%string -> s = t.
Proof.
  induction p as [|c p IH]; simpl; intros H; [exact H|].
  injection H as H. auto.
Qed.

(** ** numpy arrays *)

Lemma np_get_build A (d : A) (s : nat * nat) (f : nat -> nat -> A) y x :
  y < fst s -> x < snd s -> np_get d (np_build s f) y x = f y x.
Proof.
  intros Hy Hx. unfold np_get, np_build. simpl.
  rewrite nth_indep with (d' := map (fun x => f 0 x) (seq 0 (snd s)))
    by now rewrite length_map, length_seq.
  rewrite (map_nth (fun y => map (fun x => f y x) (seq 0 (snd s))) (seq 0 (fst s)) 0 y).
  rewrite seq_nth by assumption. simpl.
  rewrite nth_indep with (d' := f y 0)
    by now rewrite length_map, length_seq.
  rewrite (map_nth (fun x => f y x) (seq 0 (snd s)) 0 x).
  now rewrite seq_nth.
Qed.

Lemma shape_np_build A (s : nat * nat) (f : nat -> nat -> A) :
  shape (np_build s f) = s.
Proof. reflexivity. Qed.

Lemma broadcast_dim_refl n : broadcast_dim n n = Some n.
Proof. unfold broadcast_dim. now rewrite Nat.eqb_refl. Qed.

Lemma broadcast_shapes_refl s : broadcast_shapes s s = Some s.
Proof.
  unfold broadcast_shapes. rewrite !broadcast_dim_refl. now destruct s.
Qed.

Lemma np_subtract_falla a b :
  broadcast_shapes (shape a) (shape b) = None ->
  np_subtract a b = raise (ValueError_broadcast (shape a) (shape b)).
Proof. intros H. unfold np_subtract. now rewrite H. Qed.

Lemma In_where_row m y p :
  In p (where_row m y) <->
  fst p = y /\ snd p < snd (shape m) /\ np_get false m y (snd p) = true.
Proof.
  unfold where_row. rewrite in_map_iff. split.
  - intros (x & <- & Hx). apply filter_In in Hx as [Hx Hc].
    apply in_seq in Hx. simpl. repeat split; [lia | exact Hc].
  - intros (Hy & Hx & Hc). exists (snd p). split.
    + destruct p; simpl in *; now subst.
    + apply filter_In. split; [apply in_seq; lia | exact Hc].
Qed.

Lemma In_where_coords m y x :
  In (y, x) (where_coords m) <->
  y < fst (shape m) /\ x < snd (shape m) /\ np_get false m y x = true.
Proof.
  unfold where_coords. rewrite in_flat_map. split.
  - intros (y' & Hy' & Hin). apply In_where_row in Hin as (E & Hx & Hc).
    simpl in *. subst y'. apply in_seq in Hy'. repeat split; [lia | lia | exact Hc].
  - intros (Hy & Hx & Hc). exists y. split; [apply in_seq; lia|].
    apply In_where_row. simpl. auto.
Qed.

Lemma StronglySorted_app A (R : A -> A -> Prop) (l1 l2 : list A) :
  StronglySorted R l1 -> StronglySorted R l2 ->
  (forall a b, In a l1 -> In b l2 -> R a b) ->
  StronglySorted R (l1 ++ l2).
Proof.
  induction l1 as [|a l1 IH]; simpl; intros H1 H2 H12; [exact H2|].
  apply StronglySorted_inv in H1 as [H1 Ha].
  constructor.
  - apply IH; auto.
  - apply Forall_app. split; [exact Ha|].
    apply Forall_forall. intros b Hb. apply H12; auto.
Qed.

Lemma StronglySorted_seq a n : StronglySorted lt (seq a n).
Proof.
  revert a; induction n as [|n IH]; intros a; simpl; constructor; [apply IH|].
  apply Forall_forall. intros b Hb. apply in_seq in Hb. lia.
Qed.

Lemma StronglySorted_filter_lt (p : nat -> bool) l :
  StronglySorted lt l -> StronglySorted lt (filter p l).
Proof.
  induction 1 as [|a l Hs IH Ha]; simpl; [constructor|].
  destruct (p a); [|exact IH].
  constructor; [exact IH|].
  rewrite Forall_forall in *. intros b Hb. apply filter_In in Hb as [Hb _]. auto.
Qed.

Lemma where_row_sorted m y : StronglySorted row_major_lt (where_row m y).
Proof.
  unfold where_row.
  assert (H : StronglySorted lt (filter (fun x => np_get false m y x) (seq 0 (snd (shape m)))))
    by apply StronglySorted_filter_lt, StronglySorted_seq.
  induction H as [|a l Hs IH Ha]; simpl; constructor; [exact IH|].
  rewrite Forall_forall in *. intros q Hq. apply in_map_iff in Hq as (b & <- & Hb).
  right. simpl. split; [reflexivity | auto].
Qed.

Lemma where_rows_sorted m a n :
  StronglySorted row_major_lt (flat_map (where_row m) (seq a n)).
Proof.
  revert a; induction n as [|n IH]; intros a; simpl; [constructor|].
  apply StronglySorted_app; [apply where_row_sorted | apply IH |].
  intros p q Hp Hq. apply In_where_row in Hp as (Ep & _).
  apply in_flat_map in Hq as (y' & Hy' & Hq).
  apply In_where_row in Hq as (Eq' & _). apply in_seq in Hy'.
  left. lia.
Qed.

Lemma where_coords_sorted m : StronglySorted row_major_lt (where_coords m).
Proof. apply where_rows_sorted. Qed.

Lemma np_where_coords m :
  np_where m = (map fst (where_coords m), map snd (where_coords m)).
Proof. reflexivity. Qed.

Lemma In_where_gt d u y x :
  In (y, x) (where_coords (np_gt d u)) <->
  y < fst (shape d) /\ x < snd (shape d) /\ PrimFloat.ltb u (fget d y x) = true.
Proof.
  rewrite In_where_coords. unfold np_gt at 1 2. rewrite shape_np_build.
  split; intros (Hy & Hx & Hc); repeat split; try assumption.
  - unfold np_gt in Hc. now rewrite np_get_build in Hc.
  - unfold np_gt. now rewrite np_get_build.
Qed.

(** ** The loop and one iteration *)

Section Propiedades.

Variable fits_open_data : string -> Py (ndarray float).
Variable gaussian_filter : ndarray float -> nat -> ndarray float.
Variable np_std : ndarray float -> float.
Variable py_round : float -> nat -> float.
Variable datetime_now_year : nat.
Variable ordenar_por_magnitud_desc : list Fila -> list Fila.

Local Abbreviation analizador :=
  (analizador_multitemporal_picaser fits_open_data gaussian_filter np_std
     py_round datetime_now_year ordenar_por_magnitud_desc).
Local Abbreviation iter :=
  (iteracion fits_open_data gaussian_filter np_std py_round
     datetime_now_year ordenar_por_magnitud_desc).
Local Abbreviation cuerpo :=
  (cuerpo_try fits_open_data gaussian_filter np_std py_round
     datetime_now_year ordenar_por_magnitud_desc).
Local Abbreviation filtro := (filtro_picaser gaussian_filter).
Local Abbreviation resultados := (resultados_de np_std py_round datetime_now_year).
Local Abbreviation prometedores := (prometedores_de ordenar_por_magnitud_desc).
Local Abbreviation umbral := (umbral_de np_std).
Local Abbreviation inicial := comparison_result_inicial.
Local Abbreviation calc :=
  (calculo fits_open_data gaussian_filter np_std py_round
     datetime_now_year ordenar_por_magnitud_desc).
Local Abbreviation dif_de := (diferencial_de gaussian_filter).

(** The body raises before its first assignment or not at all. *)
Lemma cuerpo_try_calculo i pk ref cr :
  cuerpo i pk ref cr =
  match calc i pk ref with
  | inl e => (inl e, cr)
  | inr (d, dft, dfp) =>
      (inr tt,
       {| reference_file := reference_file cr;
          comparison_file := comparison_file cr;
          diferencial := Some d;
          lista_total := dft;
          lista_prometedores := dfp;
          error := error cr |})
  end.
Proof.
  unfold cuerpo_try, calculo, diferencial_de, mbind, lift.
  destruct (fits_open_data pk) as [e|cmp]; [reflexivity|].
  destruct (filtro ref) as [e|nc]; [reflexivity|].
  destruct (filtro cmp) as [e|pc]; [reflexivity|].
  destruct (np_subtract nc pc) as [e|resta]; [reflexivity|].
  simpl.
  destruct (prometedores (pd_DataFrame (resultados i (np_abs resta)))) as [e|dfp];
    reflexivity.
Qed.

Lemma iteracion_calculo p0 ref i pk :
  iter p0 ref i pk =
  match calc i pk ref with
  | inl e =>
      {| reference_file := p0; comparison_file := pk; diferencial := None;
         lista_total := pd_DataFrame []; lista_prometedores := pd_DataFrame [];
         error := Some (mensaje_error pk e) |}
  | inr (d, dft, dfp) =>
      {| reference_file := p0; comparison_file := pk; diferencial := Some d;
         lista_total := dft; lista_prometedores := dfp; error := None |}
  end.
Proof.
  unfold iteracion. rewrite cuerpo_try_calculo.
  destruct (calc i pk ref) as [e|[[d dft] dfp]]; reflexivity.
Qed.

Lemma analizador_eq paths :
  analizador paths =
  match paths with
  | p0 :: (_ :: _) as resto =>
      match fits_open_data p0 with
      | inl _ => []
      | inr ref =>
          map (fun i => iter p0 ref i (nth i paths ""%string))
              (seq 1 (List.length paths - 1))
      end
  | _ => []
  end.
Proof.
  unfold analizador_multitemporal_picaser.
  destruct paths as [|p0 [|p1 rest]]; try reflexivity.
  cbn [orb List.length Nat.ltb Nat.leb nth].
  destruct (fits_open_data p0) as [e|ref]; [reflexivity|].
  now rewrite fold_left_snoc.
Qed.

(** The [k]-th dictionary returned is the one iteration [k + 1] built. *)
Lemma nth_error_analizador paths k r :
  nth_error (analizador paths) k = Some r <->
  exists p0 ref pk,
    nth_error paths 0 = Some p0 /\ fits_open_data p0 = inr ref /\
    nth_error paths (S k) = Some pk /\ r = iter p0 ref (S k) pk.
Proof.
  rewrite analizador_eq.
  destruct paths as [|p0 [|p1 rest]].
  - split; [destruct k; discriminate | intros (? & ? & ? & H & _); discriminate].
  - split; [destruct k; discriminate |].
    intros (? & ? & ? & _ & _ & H & _). destruct k; discriminate.
  - destruct (fits_open_data p0) as [e|ref] eqn:Eref.
    + split; [destruct k; discriminate |].
      intros (? & ? & ? & [= <-] & H & _). congruence.
    + set (paths := p0 :: p1 :: rest).
      replace (List.length paths - 1) with (List.length (p1 :: rest))
        by (simpl; lia).
      split.
      * intros H. rewrite nth_error_map, nth_error_seq in H.
        destruct (Nat.ltb_spec k (List.length (p1 :: rest))) as [Hk|Hk];
          [|discriminate].
        simpl option_map in H. injection H as <-.
        exists p0, ref, (nth (S k) paths ""%string).
        repeat split; try assumption.
        apply nth_error_nth'. simpl in *. lia.
      * intros (q0 & ref' & pk & [= <-] & Hl & Hk & ->).
        assert (ref' = ref) by congruence. subst ref'.
        assert (Hlt : k < List.length (p1 :: rest)).
        { change (nth_error (p1 :: rest) k = Some pk) in Hk.
          apply nth_error_Some. congruence. }
        rewrite nth_error_map, nth_error_seq.
        destruct (Nat.ltb_spec k (List.length (p1 :: rest))); [|lia].
        cbn [option_map Nat.add]. f_equal. f_equal.
        now apply (nth_error_nth paths (S k)).
Qed.

Lemma filas_pd_DataFrame l : filas (pd_DataFrame l) = l.
Proof. now destruct l. Qed.

Lemma coordenadas_clasificar i d u cs :
  map (fun f => (Coord_Y f, Coord_X f))
      (clasificar py_round datetime_now_year i d u (map fst cs, map snd cs)) = cs.
Proof.
  unfold clasificar. rewrite map_map. cbn [fst snd Coord_Y Coord_X clasificar_punto].
  rewrite length_map.
  transitivity (map (fun j => nth j cs (0, 0)) (seq 0 (List.length cs)));
    [|apply map_nth_seq0].
  apply map_ext. intros j.
  rewrite (surjective_pairing (nth j cs (0, 0))).
  rewrite <- (map_nth fst), <- (map_nth snd). reflexivity.
Qed.

Lemma coordenadas_resultados i d :
  coordenadas (pd_DataFrame (resultados i d)) = where_coords (np_gt d (umbral d)).
Proof.
  unfold coordenadas. rewrite filas_pd_DataFrame.
  unfold resultados_de, puntos_de. rewrite np_where_coords.
  apply coordenadas_clasificar.
Qed.

(** Every row of [resultados] is the classification of one scanned point. *)
Lemma In_resultados i d f :
  In f (resultados i d) ->
  exists j, j < List.length (where_coords (np_gt d (umbral d))) /\
    f = clasificar_punto py_round datetime_now_year i d (umbral d)
          (puntos_de np_std d) j /\
    In (Coord_Y f, Coord_X f) (where_coords (np_gt d (umbral d))).
Proof.
  intros Hin.
  assert (Hc : In (Coord_Y f, Coord_X f) (coordenadas (pd_DataFrame (resultados i d)))).
  { unfold coordenadas. rewrite filas_pd_DataFrame.
    now apply (in_map (fun f => (Coord_Y f, Coord_X f))). }
  rewrite coordenadas_resultados in Hc.
  unfold resultados_de, clasificar in Hin. apply in_map_iff in Hin as (j & <- & Hj).
  apply in_seq in Hj. unfold puntos_de in Hj at 1.
  rewrite np_where_coords in Hj. cbn [fst] in Hj. rewrite length_map in Hj.
  exists j. split; [lia | split; [reflexivity | exact Hc]].
Qed.

(** A dictionary without error is the one a complete [try] body filled. *)
Lemma exito_inv paths k r :
  nth_error (analizador paths) k = Some r -> error r = None ->
  exists d dfp,
    diferencial r = Some d /\
    lista_total r = pd_DataFrame (resultados (S k) d) /\
    prometedores (pd_DataFrame (resultados (S k) d)) = inr dfp /\
    lista_prometedores r = dfp.
Proof.
  intros Hk He.
  apply nth_error_analizador in Hk as (p0 & ref & pk & _ & _ & _ & ->).
  rewrite iteracion_calculo in *.
  destruct (calc (S k) pk ref) as [e|[[d dft] dfp]] eqn:Ec; [discriminate|].
  unfold calculo in Ec.
  destruct (fits_open_data pk) as [e|cmp]; [discriminate|].
  destruct (dif_de ref cmp) as [e|d']; [discriminate|].
  destruct (prometedores (pd_DataFrame (resultados (S k) d'))) as [e|dfp'] eqn:Ep;
    [discriminate|].
  injection Ec as <- <- <-.
  exists d', dfp'. auto.
Qed.

(** ** The orchestrator *)

(** C2: the analyser returns one dictionary per comparison path, in input
    order (the comparison paths of the results are exactly the paths after
    the first), whatever happens inside the pairings; with fewer than two
    paths, or when the reference does not load, it returns the empty list.
    Every dictionary names the reference path. *)
Theorem C2_un_resultado_por_comparacion (paths : list string) :
  map comparison_file (analizador paths) =
    (if (List.length paths <? 2) || es_error (fits_open_data (nth 0 paths ""%string))
     then [] else tl paths)
  /\ Forall (fun r => reference_file r = nth 0 paths ""%string) (analizador paths).
Proof.
  rewrite analizador_eq.
  destruct paths as [|p0 [|p1 rest]]; [split; [reflexivity|constructor]..|].
  cbn [List.length Nat.ltb Nat.leb orb nth tl].
  destruct (fits_open_data p0) as [e|ref]; [split; [reflexivity|constructor]|].
  cbn [es_error]. split.
  - rewrite map_map.
    replace (S (S (List.length rest)) - 1) with (List.length (p1 :: rest))
      by (simpl; lia).
    rewrite <- (map_nth_seq_tl ""%string p0 (p1 :: rest)) at 2.
    apply map_ext. intros i. rewrite iteracion_calculo.
    now destruct (calc i _ ref) as [e|[[d dft] dfp]].
  - apply Forall_forall. intros r Hr. apply in_map_iff in Hr as (i & <- & _).
    rewrite iteracion_calculo.
    now destruct (calc i _ ref) as [e|[[d dft] dfp]].
Qed.

(** C8: in every dictionary returned, [error] is set exactly when the
    [try] body of that pairing raised, and [diferencial] is absent
    exactly when [error] is set. *)
Theorem C8_error_sii_fallo (paths : list string) (k : nat) (r : ComparisonResult) :
  nth_error (analizador paths) k = Some r ->
  exists p0 ref pk,
    nth_error paths 0 = Some p0 /\ fits_open_data p0 = inr ref /\
    nth_error paths (S k) = Some pk /\
    (error r <> None <->
       exists e, fst (cuerpo (S k) pk ref (inicial p0 pk)) = inl e) /\
    (diferencial r = None <-> error r <> None).
Proof.
  intros Hk.
  apply nth_error_analizador in Hk as (p0 & ref & pk & H0 & Href & Hpk & ->).
  exists p0, ref, pk. repeat (split; [assumption|]).
  rewrite iteracion_calculo, cuerpo_try_calculo.
  destruct (calc (S k) pk ref) as [e|[[d dft] dfp]]; cbn [error diferencial fst].
  - split; split; intros; try congruence; eauto.
  - split; split; intros H; try congruence.
    destruct H as [e H]. discriminate.
Qed.

(** C10: when the [try] body of a pairing raises, the dictionary appended
    for it is the initial one with only [error] filled in: both paths, no
    differential, both tables as initialised, and the message. *)
Theorem C10_fallo_sin_datos_parciales
    (paths : list string) (k : nat) (p0 pk : string) (ref : ndarray float)
    (e : PyException) :
  nth_error paths 0 = Some p0 -> fits_open_data p0 = inr ref ->
  nth_error paths (S k) = Some pk ->
  fst (cuerpo (S k) pk ref (inicial p0 pk)) = inl e ->
  nth_error (analizador paths) k =
    Some {| reference_file := p0;
            comparison_file := pk;
            diferencial := None;
            lista_total := lista_total (inicial p0 pk);
            lista_prometedores := lista_prometedores (inicial p0 pk);
            error := Some (mensaje_error pk e) |}.
Proof.
  intros H0 Href Hpk Hraise.
  apply nth_error_analizador. exists p0, ref, pk.
  repeat (split; [assumption|]).
  rewrite iteracion_calculo. rewrite cuerpo_try_calculo in Hraise.
  destruct (calc (S k) pk ref) as [e'|[[d dft] dfp]]; cbn [fst] in Hraise.
  - now injection Hraise as ->.
  - discriminate.
Qed.

(** ** Pairings without candidates, and pairings of different shapes *)

Lemma filtro_ok a :
  (forall b s, shape (gaussian_filter b s) = shape b) ->
  exists c, filtro a = inr c /\ shape c = shape a.
Proof.
  intros Hs. unfold filtro_picaser, np_subtract.
  rewrite Hs, broadcast_shapes_refl. eexists. split; reflexivity.
Qed.

(** C1 (what the code does): a pairing that loads and differences
    correctly but whose scan finds no point ends in the [except] branch:
    the empty record list gives a frame without columns, the lookup of
    the 'Prometedor' column raises KeyError, and the dictionary keeps an
    absent differential and carries the error message. *)
Theorem C1_sin_candidatos_KeyError
    (paths : list string) (k : nat) (p0 pk : string)
    (ref cmp d : ndarray float) :
  nth_error paths 0 = Some p0 -> fits_open_data p0 = inr ref ->
  nth_error paths (S k) = Some pk -> fits_open_data pk = inr cmp ->
  dif_de ref cmp = inr d ->
  fst (puntos_de np_std d) = [] ->
  nth_error (analizador paths) k =
    Some {| reference_file := p0;
            comparison_file := pk;
            diferencial := None;
            lista_total := pd_DataFrame [];
            lista_prometedores := pd_DataFrame [];
            error := Some (mensaje_error pk (KeyError "Prometedor")) |}.
Proof.
  intros H0 Href Hpk Hcmp Hd Hp.
  apply nth_error_analizador. exists p0, ref, pk.
  repeat (split; [assumption|]).
  rewrite iteracion_calculo. unfold calculo. rewrite Hcmp, Hd.
  unfold resultados_de, clasificar. rewrite Hp. reflexivity.
Qed.

(** C3 (amended): the differencing step follows numpy's broadcasting.  When
    the shapes of the reference and of the comparison frame are not
    broadcast-compatible, the pairing fails there and its dictionary
    records numpy's broadcast error, with nothing else filled in; when they
    are compatible, equal or not, the differential map is computed and has
    the broadcast shape. *)
Theorem C3_formas_incompatibles
    (paths : list string) (k : nat) (p0 pk : string) (ref cmp : ndarray float) :
  (forall a s, shape (gaussian_filter a s) = shape a) ->
  nth_error paths 0 = Some p0 -> fits_open_data p0 = inr ref ->
  nth_error paths (S k) = Some pk -> fits_open_data pk = inr cmp ->
  match broadcast_shapes (shape ref) (shape cmp) with
  | None =>
      nth_error (analizador paths) k =
        Some {| reference_file := p0;
                comparison_file := pk;
                diferencial := None;
                lista_total := pd_DataFrame [];
                lista_prometedores := pd_DataFrame [];
                error := Some (mensaje_error pk
                                 (ValueError_broadcast (shape ref) (shape cmp))) |}
  | Some s => exists d, dif_de ref cmp = inr d /\ shape d = s
  end.
Proof.
  intros Hs H0 Href Hpk Hcmp.
  destruct (filtro_ok ref Hs) as (nc & Hnc & Enc).
  destruct (filtro_ok cmp Hs) as (pc & Hpc & Epc).
  destruct (broadcast_shapes (shape ref) (shape cmp)) as [s|] eqn:Hb.
  - unfold diferencial_de. rewrite Hnc, Hpc. unfold np_subtract.
    rewrite Enc, Epc, Hb. eexists. split; reflexivity.
  - apply nth_error_analizador. exists p0, ref, pk.
    repeat (split; [assumption|]).
    rewrite iteracion_calculo. unfold calculo, diferencial_de.
    rewrite Hcmp, Hnc, Hpc.
    rewrite np_subtract_falla by now rewrite Enc, Epc.
    now rewrite Enc, Epc.
Qed.

(** ** Detection and classification *)

(** C4: in a dictionary without error, the coordinates listed in
    [lista_total] are the cells of the differential map that are strictly
    greater than five times its standard deviation, each listed once, in
    row-major order. *)
Theorem C4_umbral_y_extraccion (paths : list string) (k : nat) (r : ComparisonResult) :
  nth_error (analizador paths) k = Some r -> error r = None ->
  exists d,
    diferencial r = Some d /\
    (forall y x,
       In (y, x) (coordenadas (lista_total r)) <->
       y < fst (shape d) /\ x < snd (shape d) /\
       PrimFloat.ltb (PrimFloat.mul (np_std d) 5%float) (fget d y x) = true) /\
    StronglySorted row_major_lt (coordenadas (lista_total r)).
Proof.
  intros Hk He.
  destruct (exito_inv _ _ Hk He) as (d & dfp & Hd & Ht & _ & _).
  exists d. split; [exact Hd|]. rewrite Ht, coordenadas_resultados.
  split; [intros y x; apply In_where_gt | apply where_coords_sorted].
Qed.

(** The fields of a classified row, read against the differential map. *)
Lemma fila_clasificada i d f :
  In f (resultados i d) ->
  Magnitud_Cambio f = py_round (fget d (Coord_Y f) (Coord_X f)) 2 /\
  (Prometedor f = "SÍ"%string <->
   PrimFloat.ltb (PrimFloat.mul (PrimFloat.mul (np_std d) 5%float) 3%float)
                 (fget d (Coord_Y f) (Coord_X f)) = true) /\
  (Prometedor f = "SÍ"%string \/ Prometedor f = "No"%string).
Proof.
  intros Hf. apply In_resultados in Hf as (j & _ & -> & _).
  cbn [Magnitud_Cambio Coord_Y Coord_X Prometedor clasificar_punto].
  split; [reflexivity|]. fold (umbral d).
  destruct (PrimFloat.ltb _ _); split;
    try (split; [reflexivity | discriminate || congruence]); auto.
  split; intros; discriminate.
Qed.

(** C5 (amended): every row of [lista_total] records the differential
    value at its coordinates rounded to two decimals, and is flagged
    promising exactly when the unrounded value is strictly greater than
    three times the threshold. *)
Theorem C5_magnitud_y_prometedor (paths : list string) (k : nat) (r : ComparisonResult) :
  nth_error (analizador paths) k = Some r -> error r = None ->
  exists d,
    diferencial r = Some d /\
    forall f, In f (filas (lista_total r)) ->
      Magnitud_Cambio f = py_round (fget d (Coord_Y f) (Coord_X f)) 2 /\
      (Prometedor f = "SÍ"%string <->
       PrimFloat.ltb (PrimFloat.mul (PrimFloat.mul (np_std d) 5%float) 3%float)
                     (fget d (Coord_Y f) (Coord_X f)) = true) /\
      (Prometedor f = "SÍ"%string \/ Prometedor f = "No"%string).
Proof.
  intros Hk He.
  destruct (exito_inv _ _ Hk He) as (d & dfp & Hd & Ht & _ & _).
  exists d. split; [exact Hd|]. rewrite Ht, filas_pd_DataFrame.
  intros f. apply fila_clasificada.
Qed.

Lemma prometedores_ok l dfp :
  prometedores (pd_DataFrame l) = inr dfp ->
  filas dfp =
    ordenar_por_magnitud_desc
      (filter (fun f => String.eqb (Prometedor f) "SÍ") l).
Proof.
  destruct l as [|f l]; [discriminate|].
  unfold prometedores_de, df_getitem, df_sort_values_desc, df_mask, series_eq.
  cbn [pd_DataFrame tiene_columna columns filas].
  change (existsb (String.eqb "Prometedor")
            ["ID"; "Coord_X"; "Coord_Y"; "Magnitud_Cambio"; "Prometedor"; "Firma"]%string)
    with true.
  change (existsb (String.eqb "Magnitud_Cambio")
            ["ID"; "Coord_X"; "Coord_Y"; "Magnitud_Cambio"; "Prometedor"; "Firma"]%string)
    with true.
  cbn iota. intros [= <-]. cbn [filas].
  now rewrite <- (mask_es_filter (fun f => String.eqb (Prometedor f) "SÍ")), map_map.
Qed.

(** C6 (amended): in a dictionary without error, [lista_prometedores]
    holds exactly the rows of [lista_total] flagged promising, rearranged
    in non-increasing order of magnitude, and at each of them the
    unrounded differential value is strictly greater than three times the
    threshold.  The two premises are what pandas' sort guarantees. *)
Theorem C6_prometedores_ordenados (paths : list string) (k : nat) (r : ComparisonResult) :
  (forall l, Permutation (ordenar_por_magnitud_desc l) l) ->
  (forall l, Sorted (fun a b => mag_desc a b = true) (ordenar_por_magnitud_desc l)) ->
  nth_error (analizador paths) k = Some r -> error r = None ->
  exists d,
    diferencial r = Some d /\
    Permutation (filas (lista_prometedores r))
      (filter (fun f => String.eqb (Prometedor f) "SÍ") (filas (lista_total r))) /\
    Sorted (fun a b => mag_desc a b = true) (filas (lista_prometedores r)) /\
    Forall (fun f =>
              In f (filas (lista_total r)) /\
              PrimFloat.ltb (PrimFloat.mul (PrimFloat.mul (np_std d) 5%float) 3%float)
                            (fget d (Coord_Y f) (Coord_X f)) = true)
           (filas (lista_prometedores r)).
Proof.
  intros Hperm Hsort Hk He.
  destruct (exito_inv _ _ Hk He) as (d & dfp & Hd & Ht & Hp & Hl).
  exists d. split; [exact Hd|]. rewrite Hl, Ht, filas_pd_DataFrame.
  rewrite (prometedores_ok _ Hp).
  split; [apply Hperm | split; [apply Hsort|]].
  apply Forall_forall. intros f Hf.
  apply (Permutation_in _ (Hperm _)) in Hf. apply filter_In in Hf as [Hf Hsi].
  split; [exact Hf|].
  apply (fila_clasificada _ _ _ Hf). now apply String.eqb_eq.
Qed.

Lemma ID_inyectivo i :
  Injective (fun j => ("Picaser-Diff-" ++ str_nat i ++ "-" ++ str_nat (j + 1))%string).
Proof.
  intros j j' H.
  apply (append_inj_l "Picaser-Diff-") in H.
  apply append_inj_l in H. apply (append_inj_l "-") in H.
  apply str_nat_inj in H. lia.
Qed.

(** C7 (amended): in a dictionary without error for the pairing of index
    [k + 1], the row at position [j] of [lista_total] has the identifier
    "Picaser-Diff-<k+1>-<j+1>", and no identifier occurs twice. *)
Theorem C7_identificadores (paths : list string) (k : nat) (r : ComparisonResult) :
  nth_error (analizador paths) k = Some r -> error r = None ->
  (forall j f, nth_error (filas (lista_total r)) j = Some f ->
     ID f = ("Picaser-Diff-" ++ str_nat (S k) ++ "-" ++ str_nat (j + 1))%string) /\
  NoDup (map ID (filas (lista_total r))).
Proof.
  intros Hk He.
  destruct (exito_inv _ _ Hk He) as (d & dfp & _ & Ht & _ & _).
  rewrite Ht, filas_pd_DataFrame. unfold resultados_de, clasificar. split.
  - intros j f Hj. rewrite nth_error_map, nth_error_seq in Hj.
    destruct (Nat.ltb j _); [|discriminate].
    simpl option_map in Hj. now injection Hj as <-.
  - rewrite map_map. cbn [ID clasificar_punto].
    apply Injective_map_NoDup; [apply ID_inyectivo | apply seq_NoDup].
Qed.

End Propiedades.

(** ** Independence of the pairings *)



(** ** The reference interpretation meets the contracts *)

Lemma SFcompare_total (x y : SpecFloat.spec_float) :
  SpecFloat.SFeqb x x = true -> SpecFloat.SFeqb y y = true ->
  SpecFloat.SFleb x y = true \/ SpecFloat.SFleb y x = true.
Proof.
  unfold SpecFloat.SFeqb, SpecFloat.SFleb.
  destruct x as [sx|sx| |sx mx ex], y as [sy|sy| |sy my ey];
    cbn [SpecFloat.SFcompare]; intros Hx Hy;
    try discriminate;
    try (left; reflexivity);
    try (destruct sx; destruct sy; auto; fail);
    try (destruct sx; auto; fail);
    try (destruct sy; auto; fail).
  clear Hx Hy.
  change (Pos.compare_cont Eq mx my) with (Pos.compare mx my).
  change (Pos.compare_cont Eq my mx) with (Pos.compare my mx).
  rewrite (Z.compare_antisym ex ey), (Pos.compare_antisym mx my).
  destruct sx, sy; auto;
    destruct (ex ?= ey)%Z; cbn [CompOpp]; auto;
    destruct (mx ?= my)%positive; cbn [CompOpp]; auto.
Qed.

Lemma leb_total_sin_nan (x y : float) :
  PrimFloat.is_nan x = false -> PrimFloat.is_nan y = false ->
  PrimFloat.leb x y = true \/ PrimFloat.leb y x = true.
Proof.
  unfold PrimFloat.is_nan. rewrite !FloatAxioms.eqb_spec, !FloatAxioms.leb_spec.
  intros Hx Hy. apply SFcompare_total.
  - now destruct (SpecFloat.SFeqb (Prim2SF x) (Prim2SF x)).
  - now destruct (SpecFloat.SFeqb (Prim2SF y) (Prim2SF y)).
Qed.

Lemma mag_desc_total a b : mag_desc a b = true \/ mag_desc b a = true.
Proof.
  unfold mag_desc.
  destruct (PrimFloat.is_nan (Magnitud_Cambio b)) eqn:Eb;
    [left; apply orb_true_r|].
  destruct (PrimFloat.is_nan (Magnitud_Cambio a)) eqn:Ea;
    [right; apply orb_true_r|].
  rewrite !orb_false_r.
  destruct (leb_total_sin_nan _ _ Ea Eb); auto.
Qed.

Lemma insertar_perm f l : Permutation (Ref.insertar f l) (f :: l).
Proof.
  induction l as [|g t IH]; simpl; [reflexivity|].
  destruct (mag_desc f g); [reflexivity|].
  rewrite IH. apply perm_swap.
Qed.

Lemma insertar_sorted f l :
  Sorted (fun a b => mag_desc a b = true) l ->
  Sorted (fun a b => mag_desc a b = true) (Ref.insertar f l).
Proof.
  induction 1 as [|g t Hs IH Hd]; simpl; [repeat constructor|].
  destruct (mag_desc f g) eqn:E.
  - constructor; [constructor; assumption | constructor; exact E].
  - constructor; [exact IH|].
    destruct (mag_desc_total f g) as [H|H]; [congruence|].
    destruct t as [|h t]; simpl; [constructor; exact H|].
    destruct (mag_desc f h); constructor; [exact H|].
    now inversion Hd.
Qed.

Lemma ordenar_ref_perm l : Permutation (Ref.ordenar_por_magnitud_desc l) l.
Proof.
  induction l as [|f l IH]; simpl; [reflexivity|].
  rewrite insertar_perm. now constructor.
Qed.

Lemma ordenar_ref_sorted l :
  Sorted (fun a b => mag_desc a b = true) (Ref.ordenar_por_magnitud_desc l).
Proof.
  induction l as [|f l IH]; simpl; [constructor | now apply insertar_sorted].
Qed.

(** ** The theorems at work on the demonstration run *)

Lemma ref_gaussian_filter_shape a s : shape (Ref.gaussian_filter a s) = shape a.
Proof. reflexivity. Qed.

Lemma nth_error_nueva :
  nth_error (Ref.analizador archivos_demo 2026 paths_demo) 1 = Some resultado_nueva.
Proof. vm_compute. reflexivity. Qed.

(** Two identical frames: the scan finds nothing and the pairing is
    reported as failed. *)
Lemma C1_sin_candidatos_demo :
  nth_error (Ref.analizador archivos_demo 2026 paths_demo) 0 =
    Some {| reference_file := "ref.fits"%string;
            comparison_file := "igual.fits"%string;
            diferencial := None;
            lista_total := pd_DataFrame [];
            lista_prometedores := pd_DataFrame [];
            error := Some "Error durante la comparación con igual.fits: 'Prometedor'"%string |}.
Proof.
  apply (@C1_sin_candidatos_KeyError (Ref.fits_open_data archivos_demo)
           Ref.gaussian_filter Ref.np_std Ref.py_round 2026
           Ref.ordenar_por_magnitud_desc paths_demo 0 "ref.fits"%string "igual.fits"%string
           frame_cero frame_cero (Ref.frame [[0; 0]]%float));
    vm_compute; reflexivity.
Defined.

(** Shapes (1, 2) and (1, 3) do not broadcast. *)
Lemma C3_formas_incompatibles_demo :
  nth_error (Ref.analizador archivos_demo 2026 paths_demo) 2 =
    Some {| reference_file := "ref.fits"%string;
            comparison_file := "ancha.fits"%string;
            diferencial := None;
            lista_total := pd_DataFrame [];
            lista_prometedores := pd_DataFrame [];
            error := Some (mensaje_error "ancha.fits"%string
                             (ValueError_broadcast (1, 2) (1, 3))) |}.
Proof.
  exact (@C3_formas_incompatibles (Ref.fits_open_data archivos_demo)
           Ref.gaussian_filter Ref.np_std Ref.py_round 2026
           Ref.ordenar_por_magnitud_desc paths_demo 2 "ref.fits"%string
           "ancha.fits"%string frame_cero frame_1x3 ref_gaussian_filter_shape
           eq_refl eq_refl eq_refl eq_refl).
Defined.

(** C3 as stated fails: arrays of shapes (1, 2) and (1, 1) differ in shape
    and yet subtract, the second being broadcast along the row. *)
Lemma C3_contraejemplo_broadcast :
  shape frame_cero <> shape frame_1x1 /\
  np_subtract frame_cero frame_1x1 =
    inr {| shape := (1, 2); data := [[-1; -1]]%float |}.
Proof. split; [discriminate | vm_compute; reflexivity]. Qed.

Lemma C4_umbral_y_extraccion_demo :
  exists d,
    diferencial resultado_nueva = Some d /\
    (forall y x,
       In (y, x) (coordenadas (lista_total resultado_nueva)) <->
       y < fst (shape d) /\ x < snd (shape d) /\
       PrimFloat.ltb (PrimFloat.mul (Ref.np_std d) 5%float) (fget d y x) = true) /\
    StronglySorted row_major_lt (coordenadas (lista_total resultado_nueva)).
Proof.
  apply (@C4_umbral_y_extraccion (Ref.fits_open_data archivos_demo)
           Ref.gaussian_filter Ref.np_std Ref.py_round 2026
           Ref.ordenar_por_magnitud_desc paths_demo 1 resultado_nueva
           nth_error_nueva eq_refl).
Defined.

Lemma C5_magnitud_y_prometedor_demo :
  exists d,
    diferencial resultado_nueva = Some d /\
    forall f, In f (filas (lista_total resultado_nueva)) ->
      Magnitud_Cambio f = Ref.py_round (fget d (Coord_Y f) (Coord_X f)) 2 /\
      (Prometedor f = "SÍ"%string <->
       PrimFloat.ltb (PrimFloat.mul (PrimFloat.mul (Ref.np_std d) 5%float) 3%float)
                     (fget d (Coord_Y f) (Coord_X f)) = true) /\
      (Prometedor f = "SÍ"%string \/ Prometedor f = "No"%string).
Proof.
  apply (@C5_magnitud_y_prometedor (Ref.fits_open_data archivos_demo)
           Ref.gaussian_filter Ref.np_std Ref.py_round 2026
           Ref.ordenar_por_magnitud_desc paths_demo 1 resultado_nueva
           nth_error_nueva eq_refl).
Defined.

(** C5 as stated fails on [mapa_frontera]: the first cell, 1.00390625, is
    above the cutoff 1.00341796875 and is flagged promising, while its
    recorded magnitude 1.0 is not above the cutoff. *)
Lemma C5_contraejemplo_redondeo :
  umbral_de Ref.np_std mapa_frontera = 0.33447265625%float /\
  nth_error (resultados_de Ref.np_std Ref.py_round 2026 1 mapa_frontera) 0 =
    Some {| ID := "Picaser-Diff-1-1"%string; Coord_X := 0; Coord_Y := 0;
            Magnitud_Cambio := 1%float; Prometedor := "SÍ"%string;
            Firma := "PLG-2026"%string |} /\
  PrimFloat.ltb (PrimFloat.mul (umbral_de Ref.np_std mapa_frontera) 3%float)
                1%float = false.
Proof. vm_compute. repeat split. Qed.

Lemma C6_prometedores_ordenados_demo :
  exists d,
    diferencial resultado_nueva = Some d /\
    Permutation (filas (lista_prometedores resultado_nueva))
      (filter (fun f => String.eqb (Prometedor f) "SÍ")
              (filas (lista_total resultado_nueva))) /\
    Sorted (fun a b => mag_desc a b = true) (filas (lista_prometedores resultado_nueva)) /\
    Forall (fun f =>
              In f (filas (lista_total resultado_nueva)) /\
              PrimFloat.ltb (PrimFloat.mul (PrimFloat.mul (Ref.np_std d) 5%float) 3%float)
                            (fget d (Coord_Y f) (Coord_X f)) = true)
           (filas (lista_prometedores resultado_nueva)).
Proof.
  apply (@C6_prometedores_ordenados (Ref.fits_open_data archivos_demo)
           Ref.gaussian_filter Ref.np_std Ref.py_round 2026
           Ref.ordenar_por_magnitud_desc paths_demo 1 resultado_nueva
           ordenar_ref_perm ordenar_ref_sorted nth_error_nueva eq_refl).
Defined.

(** C6 as stated fails on [mapa_frontera]: the promising table holds a row
    whose magnitude, 1.0, is not above the cutoff 1.00341796875. *)
Lemma C6_contraejemplo_corte :
  prometedores_de Ref.ordenar_por_magnitud_desc
    (pd_DataFrame (resultados_de Ref.np_std Ref.py_round 2026 1 mapa_frontera)) =
    inr {| columns := ["ID"; "Coord_X"; "Coord_Y"; "Magnitud_Cambio";
                       "Prometedor"; "Firma"]%string;
           filas := [{| ID := "Picaser-Diff-1-1"%string; Coord_X := 0; Coord_Y := 0;
                        Magnitud_Cambio := 1%float; Prometedor := "SÍ"%string;
                        Firma := "PLG-2026"%string |}] |} /\
  PrimFloat.ltb (PrimFloat.mul (umbral_de Ref.np_std mapa_frontera) 3%float)
                1%float = false.
Proof. vm_compute. split; reflexivity. Qed.

Lemma C7_identificadores_demo :
  (forall j f, nth_error (filas (lista_total resultado_nueva)) j = Some f ->
     ID f = ("Picaser-Diff-" ++ str_nat 2 ++ "-" ++ str_nat (j + 1))%string) /\
  NoDup (map ID (filas (lista_total resultado_nueva))).
Proof.
  apply (@C7_identificadores (Ref.fits_open_data archivos_demo)
           Ref.gaussian_filter Ref.np_std Ref.py_round 2026
           Ref.ordenar_por_magnitud_desc paths_demo 1 resultado_nueva
           nth_error_nueva eq_refl).
Defined.

(** C7 as stated fails: the identifier of the first point of pairing 1 is
    "Picaser-Diff-1-1", not "Diff-1-1". *)
Lemma C7_contraejemplo_prefijo :
  map ID (resultados_de Ref.np_std Ref.py_round 2026 1 frame_1x1) =
    ["Picaser-Diff-1-1"%string] /\
  "Picaser-Diff-1-1"%string <> "Diff-1-1"%string.
Proof. split; [vm_compute; reflexivity | discriminate]. Qed.

Lemma C8_error_sii_fallo_demo :
  exists p0 ref pk,
    nth_error paths_demo 0 = Some p0 /\
    Ref.fits_open_data archivos_demo p0 = inr ref /\
    nth_error paths_demo 2 = Some pk /\
    (error resultado_nueva <> None <->
       exists e,
         fst (cuerpo_try (Ref.fits_open_data archivos_demo) Ref.gaussian_filter
                Ref.np_std Ref.py_round 2026 Ref.ordenar_por_magnitud_desc
                2 pk ref (comparison_result_inicial p0 pk)) = inl e) /\
    (diferencial resultado_nueva = None <-> error resultado_nueva <> None).
Proof.
  apply (@C8_error_sii_fallo (Ref.fits_open_data archivos_demo)
           Ref.gaussian_filter Ref.np_std Ref.py_round 2026
           Ref.ordenar_por_magnitud_desc paths_demo 1 resultado_nueva
           nth_error_nueva).
Defined.



(** The missing file. *)
Lemma C10_fallo_sin_datos_parciales_demo :
  nth_error (Ref.analizador archivos_demo 2026 paths_demo) 3 =
    Some {| reference_file := "ref.fits"%string;
            comparison_file := "nada.fits"%string;
            diferencial := None;
            lista_total := pd_DataFrame [];
            lista_prometedores := pd_DataFrame [];
            error := Some "Error durante la comparación con nada.fits: [Errno 2] No such file or directory: 'nada.fits'"%string |}.
Proof.
  apply (@C10_fallo_sin_datos_parciales (Ref.fits_open_data archivos_demo)
           Ref.gaussian_filter Ref.np_std Ref.py_round 2026
           Ref.ordenar_por_magnitud_desc paths_demo 3 "ref.fits"%string "nada.fits"%string
           frame_cero
           (LoaderError "[Errno 2] No such file or directory: 'nada.fits'"%string));
    vm_compute; reflexivity.
Defined.

(** * Figures, report and clean-up: properties *)

(** ** The working directory *)

Lemma esta_In f l : esta f l = true <-> In f l.
Proof.
  unfold esta. rewrite existsb_exists. split.
  - intros (g & Hg & E). apply String.eqb_eq in E. now subst.
  - intros H. exists f. split; [exact H | apply String.eqb_refl].
Qed.

Lemma esta_app f l1 l2 : esta f (l1 ++ l2) = esta f l1 || esta f l2.
Proof. apply existsb_app. Qed.

Lemma esta_filter f p l :
  esta f (filter (fun q => negb (String.eqb p q)) l) =
  esta f l && negb (String.eqb f p).
Proof.
  induction l as [|g l IH]; simpl; [reflexivity|].
  destruct (String.eqb_spec p g) as [->|Hpg]; simpl.
  - rewrite IH. destruct (String.eqb_spec f g) as [->|Hfg]; simpl.
    + now rewrite andb_false_r.
    + reflexivity.
  - rewrite IH. destruct (String.eqb_spec f g) as [->|Hfg]; simpl; [|reflexivity].
    destruct (String.eqb_spec g p) as [->|]; [congruence | reflexivity].
Qed.

Lemma exists_guardar w e f :
  os_path_exists (guardar w e) f = os_path_exists w f || String.eqb f (fst e).
Proof.
  unfold guardar, plt_savefig, os_path_exists. cbn [snd archivos].
  destruct (existsb (String.eqb (fst e)) (archivos w)) eqn:E.
  - destruct (String.eqb_spec f (fst e)) as [->|]; [|now rewrite orb_false_r].
    now rewrite E.
  - cbn [existsb]. apply orb_comm.
Qed.

Lemma exists_guardar_todo figs w f :
  os_path_exists (guardar_todo figs w) f =
  os_path_exists w f || esta f (map fst figs).
Proof.
  unfold guardar_todo. revert w.
  induction figs as [|e figs IH]; intros w; cbn [fold_left map];
    [now rewrite orb_false_r|].
  rewrite IH, exists_guardar. unfold esta. cbn [existsb].
  now rewrite orb_assoc.
Qed.

Lemma figuras_guardar_todo figs w :
  figuras (guardar_todo figs w) = figuras w ++ figs.
Proof.
  unfold guardar_todo. revert w.
  induction figs as [|e figs IH]; intros w; cbn [fold_left];
    [now rewrite app_nil_r|].
  rewrite IH. unfold guardar, plt_savefig. cbn [snd figuras].
  rewrite <- app_assoc. now destruct e.
Qed.

Lemma borrable_guardar w e f :
  borrable (guardar w e) f = borrable w f || String.eqb f (fst e).
Proof.
  unfold borrable, guardar, plt_savefig. cbn [snd directorios protegidos].
  rewrite !esta_filter.
  destruct (esta f (protegidos w)), (esta f (directorios w)),
    (String.eqb f (fst e)); reflexivity.
Qed.

Lemma borrable_guardar_todo figs w f :
  borrable (guardar_todo figs w) f = borrable w f || esta f (map fst figs).
Proof.
  unfold guardar_todo. revert w.
  induction figs as [|e figs IH]; intros w; cbn [fold_left map];
    [now rewrite orb_false_r|].
  rewrite IH, borrable_guardar. unfold esta. cbn [existsb].
  now rewrite orb_assoc.
Qed.

Lemma guardar_todo_app f1 f2 w :
  guardar_todo (f1 ++ f2) w = guardar_todo f2 (guardar_todo f1 w).
Proof. apply fold_left_app. Qed.

Lemma plt_savefig_guardar name fig w :
  plt_savefig name fig w = (inr tt, guardar w (name, fig)).
Proof. reflexivity. Qed.

(** A loop whose every step returns and saves the figures [G] names for its
    element returns, and has saved all of them in order. *)
Lemma recorrer_guardar A B (I : Mundo -> Prop) (G : A -> list (string * Figura))
    (R : A -> B -> Prop) (l : list A) (cuerpo : A -> Ef B) :
  (forall a w, In a l -> I w ->
     exists b, cuerpo a w = (inr b, guardar_todo (G a) w) /\ R a b) ->
  (forall w e, I w -> I (guardar w e)) ->
  forall w, I w ->
  exists bs,
    recorrer l cuerpo w = (inr bs, guardar_todo (flat_map G l) w) /\
    Forall2 R l bs.
Proof.
  intros Hstep Hmono.
  assert (Hmono' : forall figs w, I w -> I (guardar_todo figs w)).
  { unfold guardar_todo. induction figs as [|e figs IH]; intros w Hw;
      cbn [fold_left]; [exact Hw | apply IH, Hmono, Hw]. }
  induction l as [|a l IH]; intros w Hw.
  - exists []. split; [reflexivity | constructor].
  - destruct (Hstep a w (or_introl eq_refl) Hw) as (b & Hb & Rab).
    destruct (IH (fun a' w' Ha' => Hstep a' w' (or_intror Ha'))
                 (guardar_todo (G a) w) (Hmono' _ _ Hw)) as (bs & Hbs & Rbs).
    exists (b :: bs). split; [|now constructor].
    cbn [recorrer flat_map]. unfold ebind. rewrite Hb, Hbs.
    now rewrite guardar_todo_app.
Qed.

(** ** [cleanup_temporary_files] *)

Lemma limpiar_uno f w :
  (os_path_exists w f = true -> borrable w f = true) ->
  exists w',
    (if os_path_exists w f then os_remove f w else eret tt w) = (inr tt, w') /\
    figuras w' = figuras w /\
    (forall g, borrable w' g = borrable w g) /\
    forall g, os_path_exists w' g = os_path_exists w g && negb (String.eqb g f).
Proof.
  intros Hb. unfold os_remove. destruct (os_path_exists w f) eqn:E.
  - specialize (Hb eq_refl). unfold borrable, esta in Hb.
    apply andb_true_iff in Hb as [Hp Hd].
    apply negb_true_iff in Hp, Hd. rewrite Hp, Hd.
    eexists. split; [reflexivity|]. split; [reflexivity|].
    split; [reflexivity|].
    intros g. unfold os_path_exists. cbn [archivos]. apply esta_filter.
  - exists w. split; [reflexivity|]. split; [reflexivity|].
    split; [reflexivity|].
    intros g. destruct (String.eqb_spec g f) as [->|]; [|now rewrite andb_true_r].
    now rewrite E.
Qed.

Lemma cleanup_ok (lupa_files map_files : list string) (pdf_file : string)
    (w : Mundo) :
  (forall f, In f (lupa_files ++ map_files) -> os_path_exists w f = true ->
             borrable w f = true) ->
  exists w',
    cleanup_temporary_files lupa_files map_files pdf_file w = (inr tt, w') /\
    figuras w' = figuras w /\
    forall f, os_path_exists w' f =
              os_path_exists w f && negb (esta f (lupa_files ++ map_files)).
Proof.
  unfold cleanup_temporary_files.
  generalize (lupa_files ++ map_files) as l. intros l Hl.
  assert (H : exists us w',
             recorrer l (fun f w => if os_path_exists w f then os_remove f w
                                    else eret tt w) w = (inr us, w') /\
             figuras w' = figuras w /\
             forall f, os_path_exists w' f = os_path_exists w f && negb (esta f l)).
  { revert w Hl. induction l as [|g l IH]; intros w Hl.
    - exists [], w. split; [reflexivity|]. split; [reflexivity|].
      intros f. now rewrite andb_true_r.
    - destruct (limpiar_uno g w (Hl g (or_introl eq_refl)))
        as (w1 & H1 & F1 & B1 & E1).
      destruct (IH w1) as (us & w2 & H2 & F2 & E2).
      { intros f Hf Ef. rewrite B1. rewrite E1 in Ef.
        apply andb_true_iff in Ef as [Ef _].
        exact (Hl f (or_intror Hf) Ef). }
      exists (tt :: us), w2. split; [|split].
      + cbn [recorrer]. unfold ebind. now rewrite H1, H2.
      + congruence.
      + intros f. rewrite E2, E1. unfold esta. cbn [existsb].
        rewrite negb_orb, andb_assoc. reflexivity. }
  destruct H as (us & w' & H & F & E).
  exists w'. split; [|auto]. unfold ebind. now rewrite H.
Qed.

(** The first listed name that exists and that [os.remove] refuses stops
    the clean-up: the exception of [os.remove] leaves the function, the
    names listed before it are gone and the ones after it are left. *)
Example cleanup_se_detiene_en_un_directorio :
  cleanup_temporary_files ["a.png"; "viejos"]%string ["b.png"]%string
    "informe.pdf"%string mundo_con_directorio =
  (inl (IsADirectoryError "viejos"%string),
   {| archivos := ["viejos"; "b.png"; "fijo.png"]%string;
      directorios := ["viejos"]%string;
      protegidos := ["fijo.png"]%string;
      figuras := [] |}).
Proof. reflexivity. Qed.

(** X1: when no listed name that exists is a directory or a name the
    process may not delete, [cleanup_temporary_files] returns, whatever
    else the lists hold (missing or repeated names included); afterwards a
    file exists exactly when it existed before and is in neither list, and
    the report named by the third argument is not looked at. *)
Theorem X1_cleanup_quita_los_temporales
    (lupa_files map_files : list string) (pdf_file : string) (w : Mundo) :
  (forall f, In f (lupa_files ++ map_files) -> os_path_exists w f = true ->
             esta f (directorios w) = false /\ esta f (protegidos w) = false) ->
  exists w',
    cleanup_temporary_files lupa_files map_files pdf_file w = (inr tt, w') /\
    figuras w' = figuras w /\
    (forall f, In f (lupa_files ++ map_files) -> os_path_exists w' f = false) /\
    (forall f, ~ In f (lupa_files ++ map_files) ->
               os_path_exists w' f = os_path_exists w f).
Proof.
  intros Hw.
  destruct (cleanup_ok lupa_files map_files pdf_file w) as (w' & H & F & E).
  { intros f Hf Ef. destruct (Hw f Hf Ef) as [Hd Hp].
    unfold borrable. now rewrite Hd, Hp. }
  exists w'. repeat split; try assumption.
  - intros f Hf. rewrite E. apply esta_In in Hf. rewrite Hf. apply andb_false_r.
  - intros f Hf. rewrite E.
    destruct (esta f (lupa_files ++ map_files)) eqn:Ef;
      [apply esta_In in Ef; contradiction | apply andb_true_r].
Qed.

(** ** The magnifier figures *)

Lemma np_slice_shape d r0 r1 c0 c1 :
  shape (np_slice d r0 r1 c0 c1) =
  (Nat.min r1 (fst (shape d)) - Nat.min r0 (fst (shape d)),
   Nat.min c1 (snd (shape d)) - Nat.min c0 (snd (shape d))).
Proof. reflexivity. Qed.

Lemma np_slice_get d r0 r1 c0 c1 r c :
  r < fst (shape (np_slice d r0 r1 c0 c1)) ->
  c < snd (shape (np_slice d r0 r1 c0 c1)) ->
  fget (np_slice d r0 r1 c0 c1) r c = fget d (r0 + r) (c0 + c).
Proof.
  intros Hr Hc. unfold fget at 1, np_slice. now rewrite np_get_build.
Qed.

(** The window around an in-range cell: between 1 and 30 cells on each
    axis, inside the map, with the cell itself at offset [min(y, 15)],
    [min(x, 15)]. *)
Lemma zoom_de_spec d row :
  Coord_Y row < fst (shape d) -> Coord_X row < snd (shape d) ->
  let z := zoom_de d row in
  1 <= fst (shape z) <= 30 /\ 1 <= snd (shape z) <= 30 /\
  (forall r c, r < fst (shape z) -> c < snd (shape z) ->
     Coord_Y row - 15 + r < fst (shape d) /\
     Coord_X row - 15 + c < snd (shape d) /\
     fget z r c = fget d (Coord_Y row - 15 + r) (Coord_X row - 15 + c)) /\
  fget z (Nat.min (Coord_Y row) 15) (Nat.min (Coord_X row) 15) =
    fget d (Coord_Y row) (Coord_X row).
Proof.
  intros Hy Hx z. subst z. unfold zoom_de.
  set (y := Coord_Y row) in *. set (x := Coord_X row) in *.
  rewrite np_slice_shape. cbn [fst snd].
  split; [lia|]. split; [lia|]. split.
  - intros r c Hr Hc. split; [lia | split; [lia|]].
    apply np_slice_get; rewrite np_slice_shape; cbn [fst snd]; lia.
  - rewrite np_slice_get by (rewrite np_slice_shape; cbn [fst snd]; lia).
    f_equal; lia.
Qed.

Lemma tiene_columna_seis df label :
  columns df = seis_columnas -> In label seis_columnas ->
  tiene_columna df label = true.
Proof.
  intros E H. unfold tiene_columna. rewrite E.
  apply existsb_exists. exists label. split; [exact H | apply String.eqb_refl].
Qed.

Lemma lupa_de_fila_ok comp_idx r d row w :
  tiene_columna (lista_prometedores r) "Coord_X" = true ->
  tiene_columna (lista_prometedores r) "Coord_Y" = true ->
  tiene_columna (lista_prometedores r) "ID" = true ->
  lupa_de_fila comp_idx (nombre_base (reference_file r))
    (nombre_base (comparison_file r)) (Some d) (lista_prometedores r) row w =
  (inr (nombre_lupa comp_idx r row), guardar w (figura_lupa comp_idx r d row)).
Proof.
  intros Hx Hy Hi. unfold lupa_de_fila, row_getitem, ebind.
  rewrite Hx, Hy, Hi. reflexivity.
Qed.

(** X2: for a promising row whose coordinates lie inside the differential
    map, [generate_picaser_lupas] saves a figure whose image is a window of
    the map of between 1 and 30 cells on each axis, never reaching outside
    the map, that shows the candidate's own cell at offset
    [(min(y, 15), min(x, 15))]; the file named by the returned name exists
    afterwards. *)
Theorem X2_lupa_recorta_dentro_del_mapa
    (comp_idx : nat) (r : ComparisonResult) (d : ndarray float) (row : Fila)
    (w : Mundo) :
  tiene_columna (lista_prometedores r) "Coord_X" = true ->
  tiene_columna (lista_prometedores r) "Coord_Y" = true ->
  tiene_columna (lista_prometedores r) "ID" = true ->
  Coord_Y row < fst (shape d) -> Coord_X row < snd (shape d) ->
  exists name fig w',
    lupa_de_fila comp_idx (nombre_base (reference_file r))
      (nombre_base (comparison_file r)) (Some d) (lista_prometedores r) row w =
      (inr name, w') /\
    figuras w' = figuras w ++ [(name, fig)] /\
    os_path_exists w' name = true /\
    1 <= fst (shape (imagen fig)) <= 30 /\
    1 <= snd (shape (imagen fig)) <= 30 /\
    (forall i j, i < fst (shape (imagen fig)) -> j < snd (shape (imagen fig)) ->
       Coord_Y row - 15 + i < fst (shape d) /\
       Coord_X row - 15 + j < snd (shape d) /\
       fget (imagen fig) i j = fget d (Coord_Y row - 15 + i) (Coord_X row - 15 + j)) /\
    fget (imagen fig) (Nat.min (Coord_Y row) 15) (Nat.min (Coord_X row) 15) =
      fget d (Coord_Y row) (Coord_X row).
Proof.
  intros Hx Hy Hi Hyb Hxb.
  exists (nombre_lupa comp_idx r row), (snd (figura_lupa comp_idx r d row)),
         (guardar w (figura_lupa comp_idx r d row)).
  split; [now apply lupa_de_fila_ok|].
  split; [reflexivity|].
  split.
  - rewrite exists_guardar. cbn [fst figura_lupa].
    now rewrite String.eqb_refl, orb_true_r.
  - exact (zoom_de_spec d row Hyb Hxb).
Qed.

(** ** The analyser's output through the figure and report steps *)

Lemma Forall2_eq_map A B (f : A -> B) (l : list A) (bs : list B) :
  Forall2 (fun a b => b = f a) l bs -> bs = map f l.
Proof. induction 1; simpl; congruence. Qed.

Lemma Forall2_In_l A B (R : A -> B -> Prop) l bs a :
  Forall2 R l bs -> In a l -> exists b, In b bs /\ R a b.
Proof.
  induction 1 as [|a' b' l bs Hab _ IH]; intros Hin; [destruct Hin|].
  destruct Hin as [->|Hin]; [exists b'; simpl; auto|].
  destruct (IH Hin) as (b & Hb & Rb). exists b. simpl. auto.
Qed.

Lemma flat_map_singleton A B (f : A -> B) (l : list A) :
  flat_map (fun a => [f a]) l = map f l.
Proof. induction l; cbn; congruence. Qed.

Lemma map_flat_map_concat A B C (f : B -> C) (g : A -> list B) (l : list A) :
  map f (flat_map g l) = List.concat (map (fun a => map f (g a)) l).
Proof. induction l; cbn; [reflexivity|]. now rewrite map_app, IHl. Qed.

Lemma flat_map_nil A B (l : list A) : flat_map (fun _ => @nil B) l = [].
Proof. induction l; cbn; auto. Qed.

Lemma es_verdadero_mensaje pk e : es_verdadero (Some (mensaje_error pk e)) = true.
Proof. reflexivity. Qed.

Lemma In_enumerate A (l : list A) k a :
  In (k, a) (enumerate l) <-> nth_error l k = Some a.
Proof.
  unfold enumerate.
  assert (H : forall s, In (k, a) (combine (seq s (List.length l)) l) <->
                        s <= k /\ nth_error l (k - s) = Some a).
  { induction l as [|b l IH]; intros s; cbn [List.length seq combine].
    - split; [intros [] | intros [_ H]; now destruct (k - s)].
    - cbn [In]. rewrite IH. split.
      + intros [[= <- <-]|[Hs Hn]].
        * split; [lia|]. now rewrite Nat.sub_diag.
        * split; [lia|]. replace (k - s) with (S (k - S s)) by lia. exact Hn.
      + intros [Hs Hn]. destruct (Nat.eq_dec s k) as [->|Hne].
        * left. rewrite Nat.sub_diag in Hn. injection Hn as ->. reflexivity.
        * right. split; [lia|]. replace (k - s) with (S (k - S s)) in Hn by lia.
          exact Hn. }
  rewrite H, Nat.sub_0_r. split; [tauto | split; [lia | assumption]].
Qed.

Section DelAnalizador.

Variable fits_open_data : string -> Py (ndarray float).
Variable gaussian_filter : ndarray float -> nat -> ndarray float.
Variable np_std : ndarray float -> float.
Variable py_round : float -> nat -> float.
Variable datetime_now_year : nat.
Variable ordenar_por_magnitud_desc : list Fila -> list Fila.
Variable fmt_2f : float -> string.
Variable doc_build_ok : list Flowable -> bool.

Local Abbreviation analizador :=
  (analizador_multitemporal_picaser fits_open_data gaussian_filter np_std
     py_round datetime_now_year ordenar_por_magnitud_desc).

Lemma prometedores_columnas l dfp :
  prometedores_de ordenar_por_magnitud_desc (pd_DataFrame l) = inr dfp ->
  columns dfp = seis_columnas.
Proof.
  destruct l as [|f l]; [discriminate|].
  unfold prometedores_de, df_getitem, df_sort_values_desc, df_mask.
  cbn [pd_DataFrame tiene_columna columns filas].
  change (existsb (String.eqb "Prometedor")
            ["ID"; "Coord_X"; "Coord_Y"; "Magnitud_Cambio"; "Prometedor"; "Firma"]%string)
    with true.
  change (existsb (String.eqb "Magnitud_Cambio")
            ["ID"; "Coord_X"; "Coord_Y"; "Magnitud_Cambio"; "Prometedor"; "Firma"]%string)
    with true.
  cbn iota. now intros [= <-].
Qed.

Lemma analizador_de_analizador paths : Forall de_analizador (analizador paths).
Proof.
  apply Forall_forall. intros r Hr.
  apply In_nth_error in Hr as [k Hk].
  destruct (error r) as [msg|] eqn:Ee.
  - left. apply nth_error_analizador in Hk as (p0 & ref & pk & _ & _ & _ & ->).
    rewrite iteracion_calculo in Ee |- *.
    destruct (calculo _ _ _ _ _ _ _ _ _) as [e|[[d dft] dfp]]; [|discriminate].
    cbn [error]. eauto.
  - right. destruct (exito_inv _ _ _ _ _ _ _ _ Hk Ee) as (d & dfp & Hd & _ & Hp & Hl).
    unfold de_analizador. split; [exact Ee|]. split; [eauto|].
    rewrite Hl. exact (prometedores_columnas _ Hp).
Qed.

Lemma lupas_de_comparacion_ok (entrada : nat * ComparisonResult) (w : Mundo) :
  de_analizador (snd entrada) ->
  lupas_de_comparacion entrada w =
  (inr (map fst (lupas_de entrada)), guardar_todo (lupas_de entrada) w).
Proof.
  destruct entrada as [idx r]. cbn [snd].
  intros [(pk & e & He)|(He & (d & Hd) & Hc)];
    unfold lupas_de_comparacion, lupas_de; cbn [fst snd]; rewrite He.
  - reflexivity.
  - cbn [es_verdadero]. rewrite Hd.
    destruct (df_empty (lista_prometedores r)) eqn:Eemp.
    + unfold df_empty in Eemp. rewrite Hc in Eemp. cbn in Eemp.
      rewrite orb_false_r in Eemp. apply Nat.eqb_eq in Eemp.
      apply length_zero_iff_nil in Eemp. rewrite Eemp. reflexivity.
    + assert (Hstep : forall row w', In row (filas (lista_prometedores r)) -> True ->
                exists b,
                  lupa_de_fila idx (nombre_base (reference_file r))
                    (nombre_base (comparison_file r)) (Some d)
                    (lista_prometedores r) row w' =
                  (inr b, guardar_todo [figura_lupa idx r d row] w') /\
                  b = nombre_lupa idx r row).
      { intros row w' _ _. exists (nombre_lupa idx r row).
        split; [|reflexivity].
        apply lupa_de_fila_ok; apply tiene_columna_seis; cbn; auto. }
      destruct (recorrer_guardar (fun _ => True) _ _ _ _ Hstep
                  (fun _ _ _ => I) w I) as (bs & Hbs & Rbs).
      rewrite Hbs. apply Forall2_eq_map in Rbs. subst bs.
      rewrite map_map, flat_map_singleton. reflexivity.
Qed.

Lemma generate_picaser_lupas_ok (paths : list string) (w : Mundo) :
  let figs := flat_map lupas_de (enumerate (analizador paths)) in
  generate_picaser_lupas (analizador paths) w =
  (inr (map fst figs), guardar_todo figs w).
Proof.
  intros figs.
  assert (Hstep : forall e w', In e (enumerate (analizador paths)) -> True ->
            exists b,
              lupas_de_comparacion e w' = (inr b, guardar_todo (lupas_de e) w') /\
              b = map fst (lupas_de e)).
  { intros [idx r] w' Hin _. eexists. split; [|reflexivity].
    apply lupas_de_comparacion_ok. cbn [snd].
    apply In_enumerate, nth_error_In in Hin.
    exact (proj1 (Forall_forall _ _) (analizador_de_analizador paths) r Hin). }
  destruct (recorrer_guardar (fun _ => True) _ _ _ _ Hstep
              (fun _ _ _ => I) w I) as (bs & Hbs & Rbs).
  unfold generate_picaser_lupas, ebind. rewrite Hbs.
  apply Forall2_eq_map in Rbs. subst bs figs.
  now rewrite map_flat_map_concat.
Qed.

(** X3: on the list the analyser returns, [generate_picaser_lupas] never
    raises; it returns, in order, one name per row of the promising table
    of each pairing without error and none for a failed pairing, it has
    saved one figure under each of those names, and the files that exist
    afterwards are those that existed before and the ones named. *)
Theorem X3_lupas_del_analizador (paths : list string) (w : Mundo) :
  let figs := flat_map lupas_de (enumerate (analizador paths)) in
  exists w',
    generate_picaser_lupas (analizador paths) w = (inr (map fst figs), w') /\
    figuras w' = figuras w ++ figs /\
    forall f, os_path_exists w' f = os_path_exists w f || esta f (map fst figs).
Proof.
  intros figs. exists (guardar_todo figs w). split; [|split].
  - apply generate_picaser_lupas_ok.
  - apply figuras_guardar_todo.
  - intros f. apply exists_guardar_todo.
Qed.

(** ** The report *)

Lemma vista_de_fila_ok comp_idx r row w :
  tiene_columna (lista_prometedores r) "ID" = true ->
  tiene_columna (lista_prometedores r) "Magnitud_Cambio" = true ->
  os_path_exists w (nombre_lupa comp_idx r row) = true ->
  vista_de_fila fmt_2f comp_idx (nombre_base (reference_file r))
    (nombre_base (comparison_file r)) (lista_prometedores r) row w =
  (inr [Paragraph
          ("<i>Candidato: " ++ ID row ++ " - Intensidad: "
             ++ fmt_2f (Magnitud_Cambio row) ++ "</i>")%string
          "Normal";
        Image (nombre_lupa comp_idx r row) (PrimFloat.mul 3%float inch)
              (PrimFloat.mul 3%float inch);
        Spacer 1%float (PrimFloat.mul f0_1 inch)],
   w).
Proof.
  intros Hi Hm He. unfold vista_de_fila, row_getitem, ebind.
  rewrite Hi. cbn [eret].
  change ("lupa_picaser_comp" ++ str_nat (comp_idx + 1) ++ "_"
            ++ nombre_base (reference_file r) ++ "_vs_"
            ++ nombre_base (comparison_file r) ++ "_" ++ ID row ++ ".png")%string
    with (nombre_lupa comp_idx r row).
  rewrite He, Hm. reflexivity.
Qed.

Lemma columnas_del_scatter_ok df w :
  columns df = seis_columnas -> columnas_del_scatter df w = (inr tt, w).
Proof.
  intros Hc. unfold columnas_del_scatter.
  destruct (df_empty df); [reflexivity|].
  rewrite !tiene_columna_seis by (try exact Hc; cbn; auto). reflexivity.
Qed.

Lemma seccion_ok (rs : list ComparisonResult) (entrada : nat * ComparisonResult)
    (w : Mundo) :
  In entrada (enumerate rs) -> de_analizador (snd entrada) ->
  (forall f, In f (map fst (flat_map lupas_de (enumerate rs))) ->
             os_path_exists w f = true) ->
  exists b,
    seccion fmt_2f entrada w = (inr b, guardar_todo (mapas_de entrada) w) /\
    seccion_en_regla entrada b.
Proof.
  destruct entrada as [idx r]. cbn [snd].
  intros Hin [(pk & e & He)|(He & (d & Hd) & Hc)] Hlupas;
    unfold seccion, mapas_de; cbn [fst snd]; rewrite He.
  - cbn [es_verdadero mensaje_error]. eexists. split; [reflexivity|].
    split.
    + unfold seccion_de_error. rewrite He. reflexivity.
    + cbn [fst snd]. rewrite He. intros msg [= <-].
      unfold seccion_de_error. rewrite He. reflexivity.
  - cbn [es_verdadero]. rewrite Hd.
    assert (Hstep : forall row w', In row (filas (lista_prometedores r)) ->
              (forall f, In f (map fst (flat_map lupas_de (enumerate rs))) ->
                         os_path_exists w' f = true) ->
              exists b,
                vista_de_fila fmt_2f idx (nombre_base (reference_file r))
                  (nombre_base (comparison_file r)) (lista_prometedores r) row w' =
                (inr b, guardar_todo [] w') /\
                forallb (fun f => negb (es_aviso f)) b = true).
    { intros row w' Hrow Hw'. eexists. split.
      - apply vista_de_fila_ok; try (apply tiene_columna_seis; cbn; auto).
        apply Hw'. apply in_map_iff.
        exists (figura_lupa idx r d row). split; [reflexivity|].
        apply in_flat_map. exists (idx, r). split; [exact Hin|].
        unfold lupas_de. cbn [fst snd]. rewrite He, Hd. cbn [es_verdadero].
        now apply in_map.
      - reflexivity. }
    set (wm := guardar w
                 (nombre_mapa idx r,
                  {| imagen := d;
                     titulo := ("MAPA DE DIFERENCIAS TEMPORALES" ++ salto ++ "("
                                  ++ nombre_base (reference_file r) ++ " vs "
                                  ++ nombre_base (comparison_file r) ++ ")")%string |})).
    assert (Hwm : forall f, In f (map fst (flat_map lupas_de (enumerate rs))) ->
                            os_path_exists wm f = true).
    { intros f Hf. unfold wm. rewrite exists_guardar, (Hlupas f Hf). reflexivity. }
    destruct (recorrer_guardar
                (fun w' => forall f, In f (map fst (flat_map lupas_de (enumerate rs))) ->
                                     os_path_exists w' f = true)
                _ _ _ _ Hstep
                (fun w' e' Hw' f Hf =>
                   eq_trans (exists_guardar w' e' f)
                            (f_equal (fun b => b || String.eqb f (fst e')) (Hw' f Hf)))
                wm Hwm) as (bs & Hbs & Rbs).
    rewrite flat_map_nil in Hbs. cbn [guardar_todo fold_left] in Hbs.
    eexists. split.
    + unfold seccion_de_comparacion, ebind. rewrite Hd.
      rewrite (columnas_del_scatter_ok _ _ Hc). rewrite plt_savefig_guardar.
      fold wm.
      change ("mapa_diferencial_comp" ++ str_nat (idx + 1) ++ "_"
                ++ nombre_base (reference_file r) ++ "_vs_"
                ++ nombre_base (comparison_file r) ++ ".png")%string
        with (nombre_mapa idx r).
      cbn [eret].
      assert (Hex : os_path_exists wm (nombre_mapa idx r) = true).
      { unfold wm. rewrite exists_guardar. cbn [fst].
        now rewrite String.eqb_refl, orb_true_r. }
      fold wm. rewrite Hbs. cbn [eret]. rewrite Hex. reflexivity.
    + split; [|intros msg Hm; cbn [snd] in Hm; congruence].
      rewrite !forallb_app. cbn [forallb es_aviso negb andb prefix].
      change (forallb (fun f => negb (es_aviso f)) (List.concat bs) = true).
      clear - Rbs. induction Rbs as [|a b l bs Hb _ IH]; cbn [List.concat];
        [reflexivity|].
      now rewrite forallb_app, Hb, IH.
Qed.

Lemma mapas_de_nombres (rs : list ComparisonResult) :
  Forall de_analizador rs ->
  map fst (flat_map mapas_de (enumerate rs)) = mapa_diferencial_filenames rs.
Proof.
  intros Hrs. unfold mapa_diferencial_filenames.
  assert (H : forall e, In e (enumerate rs) -> de_analizador (snd e)).
  { intros [k r] Hin. apply In_enumerate, nth_error_In in Hin.
    exact (proj1 (Forall_forall _ _) Hrs r Hin). }
  induction (enumerate rs) as [|e l IH]; cbn [flat_map]; [reflexivity|].
  rewrite map_app, IH by (intros e' He'; apply H; now right). f_equal.
  destruct (H e (or_introl eq_refl)) as [(pk & x & He)|(He & (d & Hd) & _)];
    unfold mapas_de; rewrite He; [reflexivity|].
  cbn [es_verdadero negb]. now rewrite Hd.
Qed.

Lemma story_multi_ok (paths : list string) (w : Mundo) :
  let rs := analizador paths in
  (forall f, In f (map fst (flat_map lupas_de (enumerate rs))) ->
             os_path_exists w f = true) ->
  exists secs,
    story_multi fmt_2f rs w =
      (inr (portada ++ List.concat secs),
       guardar_todo (flat_map mapas_de (enumerate rs)) w) /\
    Forall2 seccion_en_regla (enumerate rs) secs.
Proof.
  intros rs Hw.
  assert (Hstep : forall e w', In e (enumerate rs) ->
            (forall f, In f (map fst (flat_map lupas_de (enumerate rs))) ->
                       os_path_exists w' f = true) ->
            exists b,
              seccion fmt_2f e w' = (inr b, guardar_todo (mapas_de e) w') /\
              seccion_en_regla e b).
  { intros e w' Hin Hw'. apply (seccion_ok rs); try assumption.
    destruct e as [k r]. apply In_enumerate, nth_error_In in Hin.
    exact (proj1 (Forall_forall _ _) (analizador_de_analizador paths) r Hin). }
  destruct (recorrer_guardar _ _ _ _ _ Hstep
              (fun w' e' Hw' f Hf =>
                 eq_trans (exists_guardar w' e' f)
                          (f_equal (fun b => b || String.eqb f (fst e')) (Hw' f Hf)))
              w Hw) as (secs & Hsecs & Rsecs).
  exists secs. split; [|exact Rsecs].
  unfold story_multi, ebind. now rewrite Hsecs.
Qed.

Lemma despues_de_las_lupas (paths : list string) (w : Mundo) f :
  In f (map fst (flat_map lupas_de (enumerate (analizador paths)))) ->
  os_path_exists (snd (generate_picaser_lupas (analizador paths) w)) f = true.
Proof.
  intros Hf. rewrite generate_picaser_lupas_ok. cbn [snd].
  rewrite exists_guardar_todo. apply esta_In in Hf. rewrite Hf. apply orb_true_r.
Qed.

Lemma sin_avisos_concat (l : list (nat * ComparisonResult)) secs :
  Forall2 seccion_en_regla l secs ->
  forallb (fun f => negb (es_aviso f)) (List.concat secs) = true.
Proof.
  induction 1 as [|e b l secs [Hb _] _ IH]; cbn [List.concat]; [reflexivity|].
  now rewrite forallb_app, Hb, IH.
Qed.

(** X4: run on the analyser's list in the directory the magnifier step
    left, the report step builds its story without raising; the story holds
    no notice of a missing image (every promising row gets the Image of its
    own magnifier file, and every map its Image), and the maps it saved are
    exactly the names the main block recomputes for the clean-up. *)
Theorem X4_informe_sin_avisos (paths : list string) (w : Mundo) :
  let rs := analizador paths in
  let w1 := snd (generate_picaser_lupas rs w) in
  exists story w2,
    story_multi fmt_2f rs w1 = (inr story, w2) /\
    forallb (fun f => negb (es_aviso f)) story = true /\
    forall f, os_path_exists w2 f =
              os_path_exists w1 f || esta f (mapa_diferencial_filenames rs).
Proof.
  intros rs w1.
  destruct (story_multi_ok paths w1 (despues_de_las_lupas paths w))
    as (secs & Hs & Rs).
  eexists. eexists. split; [exact Hs|]. split.
  - rewrite forallb_app. rewrite (sin_avisos_concat Rs). reflexivity.
  - intros f. rewrite exists_guardar_todo.
    now rewrite (mapas_de_nombres (analizador_de_analizador paths)).
Qed.

(** X5: the report shows every failed pairing: for each dictionary of the
    analyser's list that carries an error message, the story holds the
    heading "ERROR en Comparación <position>" with the base names of the
    two files, immediately followed by the message in italics. *)
Theorem X5_informe_muestra_cada_error
    (paths : list string) (w : Mundo) (k : nat) (r : ComparisonResult)
    (msg : string) :
  nth_error (analizador paths) k = Some r -> error r = Some msg ->
  exists story w2 antes despues,
    story_multi fmt_2f (analizador paths)
      (snd (generate_picaser_lupas (analizador paths) w)) = (inr story, w2) /\
    story =
      antes ++
      [Paragraph
         ("<br/><br/><b>ERROR en Comparación " ++ str_nat (k + 1) ++ ": "
            ++ os_path_basename (reference_file r) ++ " vs "
            ++ os_path_basename (comparison_file r) ++ "</b>")%string "h2";
       Paragraph ("<i>" ++ msg ++ "</i>")%string "Normal";
       Spacer 1%float (PrimFloat.mul f0_2 inch)] ++ despues.
Proof.
  intros Hk He.
  destruct (story_multi_ok paths _ (despues_de_las_lupas paths w))
    as (secs & Hs & Rs).
  apply In_enumerate in Hk.
  destruct (Forall2_In_l (k, r) Rs Hk) as (b & Hb & _ & Hmsg).
  specialize (Hmsg msg He). cbn [fst snd] in Hmsg.
  apply in_split in Hb as (s1 & s2 & ->).
  eexists. eexists. exists (portada ++ List.concat s1), (List.concat s2).
  split; [exact Hs|].
  rewrite concat_app. cbn [List.concat]. rewrite Hmsg.
  now rewrite <- !app_assoc.
Qed.

(** ** The main block after the input *)

Local Abbreviation tras_entrada :=
  (tras_la_entrada fits_open_data gaussian_filter np_std py_round
     datetime_now_year ordenar_por_magnitud_desc fmt_2f doc_build_ok).

Lemma temporales_no_pdf (rs : list ComparisonResult) f :
  In f (temporales rs) -> f <> final_pdf_name.
Proof.
  unfold temporales. rewrite in_app_iff. intros [H|H].
  - apply in_map_iff in H as (e & <- & He).
    apply in_flat_map in He as ([k r] & _ & He). unfold lupas_de in He.
    destruct (es_verdadero _); [destruct He|].
    destruct (diferencial _); [|destruct He].
    apply in_map_iff in He as (row & <- & _). discriminate.
  - unfold mapa_diferencial_filenames in H.
    apply in_flat_map in H as ([k r] & _ & H).
    destruct (negb _); [|destruct H].
    destruct H as [<-|[]]. discriminate.
Qed.

Lemma exists_doc_build pdf story w :
  doc_build_ok story = true ->
  exists w', doc_build doc_build_ok pdf story w = (inr tt, w') /\
    figuras w' = figuras w /\
    (forall f, borrable w f = true -> borrable w' f = true) /\
    forall f, os_path_exists w' f = os_path_exists w f || String.eqb f pdf.
Proof.
  intros Hok. unfold doc_build. rewrite Hok. eexists. split; [reflexivity|].
  split; [reflexivity|].
  split.
  { intros f. unfold borrable. cbn [directorios protegidos].
    rewrite esta_filter. destruct (esta f (protegidos w)); [easy|].
    destruct (esta f (directorios w)); [easy | reflexivity]. }
  intros f. unfold os_path_exists. cbn [archivos].
  destruct (existsb (String.eqb pdf) (archivos w)) eqn:E.
  - destruct (String.eqb_spec f pdf) as [->|]; [|now rewrite orb_false_r].
    now rewrite E.
  - cbn [existsb]. apply orb_comm.
Qed.

Lemma tras_la_entrada_casos (paths : list string) (w : Mundo) :
  let rs := analizador paths in
  exists story w2,
    story_multi fmt_2f rs (snd (generate_picaser_lupas rs w)) = (inr story, w2) /\
    (forall f, os_path_exists w2 f = os_path_exists w f || esta f (temporales rs)) /\
    (doc_build_ok story = false -> tras_entrada paths w = (inl ErrorDeBuild, w2)) /\
    (doc_build_ok story = true ->
       exists w',
         tras_entrada paths w = (inr tt, w') /\
         forall f, os_path_exists w' f =
                   (os_path_exists w f || String.eqb f final_pdf_name)
                   && negb (esta f (temporales rs))).
Proof.
  intros rs. subst rs.
  pose proof (generate_picaser_lupas_ok paths w) as Hl. cbv zeta in Hl.
  destruct (story_multi_ok paths _ (despues_de_las_lupas paths w))
    as (secs & Hs & _).
  rewrite Hl in Hs |- *. cbn [snd] in Hs |- *.
  set (rs := analizador paths) in *.
  set (w1 := guardar_todo (flat_map lupas_de (enumerate rs)) w) in *.
  set (w2 := guardar_todo (flat_map mapas_de (enumerate rs)) w1) in *.
  exists (portada ++ List.concat secs), w2. split; [exact Hs|].
  assert (Hw2 : forall f,
            os_path_exists w2 f = os_path_exists w f || esta f (temporales rs)).
  { intros f. unfold w2, w1. rewrite !exists_guardar_todo.
    unfold temporales. rewrite esta_app.
    pose proof (mapas_de_nombres (analizador_de_analizador paths)) as Hm.
    fold rs in Hm. rewrite Hm. now rewrite orb_assoc. }
  split; [exact Hw2|].
  assert (Hrun : tras_entrada paths w =
            ebind (doc_build doc_build_ok final_pdf_name (portada ++ List.concat secs))
              (fun _ => cleanup_temporary_files
                          (map fst (flat_map lupas_de (enumerate rs)))
                          (mapa_diferencial_filenames rs) final_pdf_name)
              w2).
  { unfold tras_la_entrada, generate_multi_comparison_pdf. fold rs.
    unfold ebind at 1. rewrite Hl.
    unfold ebind at 1. unfold ebind at 1. fold w1. rewrite Hs. reflexivity. }
  split.
  - intros Hko. rewrite Hrun. unfold ebind, doc_build. now rewrite Hko.
  - intros Hok. rewrite Hrun.
    destruct (exists_doc_build final_pdf_name w2 Hok) as (w3 & H3 & _ & B3 & E3).
    destruct (cleanup_ok (map fst (flat_map lupas_de (enumerate rs)))
                (mapa_diferencial_filenames rs) final_pdf_name w3)
      as (w4 & H4 & _ & E4).
    { intros f Hf _. fold (temporales rs) in Hf. apply esta_In in Hf.
      apply B3. unfold w2, w1. rewrite !borrable_guardar_todo.
      unfold temporales in Hf. rewrite esta_app in Hf.
      pose proof (mapas_de_nombres (analizador_de_analizador paths)) as Hm.
      fold rs in Hm. rewrite Hm, <- orb_assoc, Hf. apply orb_true_r. }
    exists w4. split.
    + unfold ebind. rewrite H3. exact H4.
    + intros f. rewrite E4, E3, Hw2. fold (temporales rs).
      destruct (esta f (temporales rs)) eqn:Et; [now rewrite !andb_false_r|].
      now rewrite orb_false_r.
Qed.

(** X6: when the main block runs to its end on the paths collected, the
    report exists, none of the PNG files of the run (magnifier figures and
    maps) exists any more, and every other file is as it was: the run
    leaves one new file, the report. *)
Theorem X6_ejecucion_completa_solo_deja_el_informe
    (paths : list string) (w : Mundo) :
  fst (tras_entrada paths w) = inr tt ->
  let w' := snd (tras_entrada paths w) in
  let rs := analizador paths in
  os_path_exists w' final_pdf_name = true /\
  (forall f, In f (temporales rs) -> os_path_exists w' f = false) /\
  (forall f, ~ In f (temporales rs) -> f <> final_pdf_name ->
             os_path_exists w' f = os_path_exists w f).
Proof.
  intros Hfin. cbv zeta. set (rs := analizador paths).
  destruct (tras_la_entrada_casos paths w) as (story & w2 & _ & _ & Hko & Hok).
  fold rs in Hok.
  destruct (doc_build_ok story) eqn:Eb.
  - destruct (Hok eq_refl) as (w4 & H4 & E4). rewrite H4. cbn [snd].
    split; [|split].
    + rewrite E4, String.eqb_refl, orb_true_r.
      destruct (esta final_pdf_name (temporales rs)) eqn:Et; [|reflexivity].
      apply esta_In in Et. now apply temporales_no_pdf in Et.
    + intros f Hf. rewrite E4. apply esta_In in Hf. rewrite Hf. apply andb_false_r.
    + intros f Hf Hpdf. rewrite E4.
      destruct (esta f (temporales rs)) eqn:Et;
        [apply esta_In in Et; contradiction|].
      destruct (String.eqb_spec f final_pdf_name); [contradiction|].
      now rewrite orb_false_r, andb_true_r.
  - rewrite (Hko eq_refl) in Hfin. discriminate.
Qed.


(** ** The input loop *)

Lemma leer_rutas_inv (w : Mundo) (lineas acc paths resto : list string) :
  leer_rutas w lineas acc = inr (paths, resto) ->
  exists leidas,
    lineas = leidas ++ ""%string :: resto /\
    paths = acc ++ filter (ruta_aceptada w) leidas /\
    2 <= List.length paths /\
    (forall a b, leidas = a ++ ""%string :: b ->
                 List.length (acc ++ filter (ruta_aceptada w) a) < 2).
Proof.
  revert acc. induction lineas as [|l lineas IH]; intros acc H; [discriminate|].
  cbn [leer_rutas] in H.
  destruct (String.eqb l "") eqn:El.
  - assert (Ha : ruta_aceptada w l = false) by (unfold ruta_aceptada; now rewrite El).
    apply String.eqb_eq in El. subst l.
    destruct (Nat.ltb_spec (List.length acc) 2) as [Hlt|Hge].
    + destruct (IH acc H) as (leidas & -> & -> & Hlen & Hblank).
      exists (""%string :: leidas). cbn [filter app]. rewrite Ha.
      repeat split; try assumption.
      intros [|a0 a] b E; cbn [app] in E; [now rewrite app_nil_r|].
      injection E as <- E. cbn [filter]. rewrite Ha. now apply (Hblank a b).
    + injection H as <- <-. exists []. cbn [app filter].
      rewrite app_nil_r. repeat split; try assumption.
      intros [|a0 a] b E; discriminate.
  - destruct (os_path_exists w l) eqn:Ex.
    + assert (Ha : ruta_aceptada w l = true)
        by (unfold ruta_aceptada; now rewrite El, Ex).
      destruct (IH (acc ++ [l]) H) as (leidas & -> & -> & Hlen & Hblank).
      exists (l :: leidas). cbn [filter app]. rewrite Ha.
      rewrite <- app_assoc in Hlen |- *. cbn [app] in Hlen |- *.
      repeat split; try assumption.
      intros [|a0 a] b E; cbn [app] in E; injection E as E1 E2;
        [subst l; discriminate|].
      subst a0. cbn [filter]. rewrite Ha.
      specialize (Hblank a b E2). now rewrite <- app_assoc in Hblank.
    + assert (Ha : ruta_aceptada w l = false)
        by (unfold ruta_aceptada; now rewrite Ex, andb_false_r).
      destruct (IH acc H) as (leidas & -> & -> & Hlen & Hblank).
      exists (l :: leidas). cbn [filter app]. rewrite Ha.
      repeat split; try assumption.
      intros [|a0 a] b E; cbn [app] in E; injection E as E1 E2;
        [subst l; discriminate|].
      subst a0. cbn [filter]. rewrite Ha. now apply (Hblank a b).
Qed.

Lemma leer_rutas_solo_EOF (w : Mundo) (lineas acc : list string) e :
  leer_rutas w lineas acc = inl e -> e = EOFError.
Proof.
  revert acc. induction lineas as [|l lineas IH]; intros acc H;
    cbn [leer_rutas] in H; [congruence|].
  destruct (String.eqb l ""); [destruct (List.length acc <? 2)|
                               destruct (os_path_exists w l)];
    try discriminate; eauto.
Qed.

(** X8: when the input loop ends, the lines read are those up to a blank
    line, that blank line is the first one entered with at least two paths
    collected, and the paths returned are exactly the lines before it that
    are not blank and name an existing file, in the order typed: at least
    two, each existing. *)
Theorem X8_entrada_de_rutas (w : Mundo) (lineas paths resto : list string) :
  leer_rutas w lineas [] = inr (paths, resto) ->
  exists leidas,
    lineas = leidas ++ ""%string :: resto /\
    paths = filter (ruta_aceptada w) leidas /\
    2 <= List.length paths /\
    Forall (fun p => os_path_exists w p = true) paths /\
    (forall a b, leidas = a ++ ""%string :: b ->
                 List.length (filter (ruta_aceptada w) a) < 2).
Proof.
  intros H. destruct (leer_rutas_inv _ _ _ H) as (leidas & E1 & E2 & Hlen & Hb).
  cbn [app] in E2, Hb. exists leidas. repeat split; try assumption.
  subst paths. apply Forall_forall. intros p Hp.
  apply filter_In in Hp as [_ Hp]. unfold ruta_aceptada in Hp.
  now apply andb_true_iff in Hp as [_ Hp].
Qed.

(** X9: the main block either stops at the end of the input with
    [EOFError], having touched nothing, or runs the analysis, the figures,
    the report and the clean-up on at least two paths that all exist; the
    guard of line 308 never holds. *)
Theorem X9_principal_casos (lineas : list string) (w : Mundo) :
  principal fits_open_data gaussian_filter np_std py_round datetime_now_year
    ordenar_por_magnitud_desc fmt_2f doc_build_ok lineas w = (inl EOFError, w)
  \/
  exists paths resto,
    leer_rutas w lineas [] = inr (paths, resto) /\
    2 <= List.length paths /\
    Forall (fun p => os_path_exists w p = true) paths /\
    principal fits_open_data gaussian_filter np_std py_round datetime_now_year
      ordenar_por_magnitud_desc fmt_2f doc_build_ok lineas w =
    tras_entrada paths w.
Proof.
  unfold principal.
  destruct (leer_rutas w lineas []) as [e|[paths resto]] eqn:E.
  - left. now rewrite (leer_rutas_solo_EOF _ _ _ E).
  - right. exists paths, resto.
    destruct (leer_rutas_inv _ _ _ E) as (leidas & _ & E2 & Hlen & _).
    cbn [app] in E2. repeat split; try assumption.
    + subst paths. apply Forall_forall. intros p Hp.
      apply filter_In in Hp as [_ Hp]. unfold ruta_aceptada in Hp.
      now apply andb_true_iff in Hp as [_ Hp].
    + destruct (Nat.ltb_spec (List.length paths) 2); [lia | reflexivity].
Qed.

(** ** The names of the PNG files *)

Lemma length_append (s t : string) :
  String.length (s ++ t) = String.length s + String.length t.
Proof. induction s as [|c s IH]; cbn; [reflexivity | now rewrite IH]. Qed.

Lemma append_inj_r (s t p : string) : (s ++ p = t ++ p)%string -> s = t.
Proof.
  revert t. induction s as [|c s IH]; intros [|c' t] H; cbn in H.
  - reflexivity.
  - apply (f_equal String.length) in H. cbn in H. rewrite length_append in H. lia.
  - apply (f_equal String.length) in H. cbn in H. rewrite length_append in H. lia.
  - injection H as -> H. f_equal. now apply IH.
Qed.

Lemma str_nat_sin_guion n : aparece "_" (str_nat n) = false.
Proof.
  unfold str_nat. induction (Nat.to_uint n); cbn; auto.
Qed.

Lemma separador (c : ascii) (u v s t : string) :
  aparece c u = false -> aparece c v = false ->
  (u ++ String c s = v ++ String c t)%string -> u = v.
Proof.
  revert v. induction u as [|a u IH]; intros [|b v] Hu Hv H; cbn in *.
  - reflexivity.
  - injection H as <- _. now rewrite Ascii.eqb_refl in Hv.
  - injection H as -> _. now rewrite Ascii.eqb_refl in Hu.
  - injection H as -> H. apply orb_false_iff in Hu as [_ Hu].
    apply orb_false_iff in Hv as [_ Hv]. f_equal. now apply (IH v).
Qed.

Lemma nombre_lupa_indice k r row k' r' row' :
  nombre_lupa k r row = nombre_lupa k' r' row' -> k = k'.
Proof.
  unfold nombre_lupa. intros H. apply append_inj_l in H.
  apply separador in H; try apply str_nat_sin_guion.
  apply str_nat_inj in H. lia.
Qed.

Lemma nombre_mapa_indice k r k' r' :
  nombre_mapa k r = nombre_mapa k' r' -> k = k'.
Proof.
  unfold nombre_mapa. intros H. apply append_inj_l in H.
  apply separador in H; try apply str_nat_sin_guion.
  apply str_nat_inj in H. lia.
Qed.

Lemma nombre_lupa_ID k r row row' :
  nombre_lupa k r row = nombre_lupa k r row' -> ID row = ID row'.
Proof.
  unfold nombre_lupa. intros H.
  do 7 apply append_inj_l in H. now apply append_inj_r in H.
Qed.

Lemma map_fst_enumerate A (l : list A) :
  map fst (enumerate l) = seq 0 (List.length l).
Proof.
  unfold enumerate. generalize 0.
  induction l as [|a l IH]; intros s; cbn; [reflexivity | now rewrite IH].
Qed.

Lemma NoDup_flat_map_indices A (g : nat * A -> list string) (l : list (nat * A)) :
  NoDup (map fst l) ->
  (forall e, In e l -> NoDup (g e)) ->
  (forall e e' s, In e l -> In e' l -> In s (g e) -> In s (g e') -> fst e = fst e') ->
  NoDup (flat_map g l).
Proof.
  induction l as [|e l IH]; intros Hnd Hblock Hcross; cbn [flat_map];
    [constructor|].
  cbn [map] in Hnd. apply NoDup_cons_iff in Hnd as [Hnot Hnd].
  apply NoDup_app.
  - apply Hblock. now left.
  - apply IH; [exact Hnd | intros; apply Hblock; now right |].
    intros e1 e2 s H1 H2. apply Hcross; now right.
  - intros s Hs Hs'. apply in_flat_map in Hs' as (e' & He' & Hs').
    apply Hnot. rewrite (Hcross e e' s); auto; [|now left | now right].
    now apply in_map.
Qed.

Lemma ID_distintos_filter (cond : Fila -> bool) (rows : list Fila) :
  NoDup (map ID rows) -> NoDup (map ID (filter cond rows)).
Proof.
  intros Hnd. induction rows as [|row rows IH]; cbn [filter map] in *;
    [constructor|].
  apply NoDup_cons_iff in Hnd as [Hnot Hnd].
  destruct (cond row); cbn [map]; [|auto].
  constructor; [|auto]. intros Hin. apply Hnot.
  apply in_map_iff in Hin as (x & E & Hx). apply filter_In in Hx as [Hx _].
  rewrite <- E. now apply in_map.
Qed.

(** The identifiers of the promising rows of a complete dictionary are
    pairwise distinct when the sort only rearranges rows. *)
Lemma prometedores_ID_distintos (paths : list string) k r :
  (forall l, Permutation (ordenar_por_magnitud_desc l) l) ->
  nth_error (analizador paths) k = Some r -> error r = None ->
  NoDup (map ID (filas (lista_prometedores r))).
Proof.
  intros Hperm Hk He.
  destruct (exito_inv _ _ _ _ _ _ _ _ Hk He) as (d & dfp & _ & _ & Hp & ->).
  rewrite (prometedores_ok _ _ Hp).
  apply (Permutation_NoDup (Permutation_map ID (Permutation_sym (Hperm _)))).
  apply ID_distintos_filter.
  unfold resultados_de, clasificar. rewrite map_map. cbn [ID clasificar_punto].
  apply Injective_map_NoDup; [apply ID_inyectivo | apply seq_NoDup].
Qed.

(** X10: when pandas' sort only rearranges the rows, the PNG files of a run
    of the analyser's list all have different names: no magnifier figure
    or map is written over another one. *)
Theorem X10_nombres_distintos (paths : list string) :
  (forall l, Permutation (ordenar_por_magnitud_desc l) l) ->
  NoDup (temporales (analizador paths)).
Proof.
  intros Hperm. unfold temporales. set (rs := analizador paths).
  assert (Hidx : NoDup (map fst (enumerate rs)))
    by (rewrite map_fst_enumerate; apply seq_NoDup).
  apply NoDup_app.
  - rewrite map_flat_map_concat, <- flat_map_concat_map.
    apply NoDup_flat_map_indices; [exact Hidx | |].
    + intros [k r] Hin. unfold lupas_de. cbn [fst snd].
      apply In_enumerate in Hin.
      destruct (proj1 (Forall_forall _ _) (analizador_de_analizador paths) r
                  (nth_error_In _ _ Hin)) as [(pk & e & He)|(He & (d & Hd) & _)];
        rewrite He; [constructor|].
      cbn [es_verdadero]. rewrite Hd, map_map. cbn [fst figura_lupa].
      pose proof (prometedores_ID_distintos paths k Hperm Hin He) as Hid.
      clear - Hid. induction (filas (lista_prometedores r)) as [|row l IH];
        cbn [map] in *; [constructor|].
      apply NoDup_cons_iff in Hid as [Hnot Hid]. constructor; [|auto].
      intros Hrow. apply Hnot. apply in_map_iff in Hrow as (row' & E & Hrow').
      apply nombre_lupa_ID in E. rewrite <- E. now apply in_map.
    + intros [k r] [k' r'] s _ _ Hs Hs'. cbn [fst].
      unfold lupas_de in Hs, Hs'. cbn [fst snd] in Hs, Hs'.
      destruct (es_verdadero (error r)); [destruct Hs|].
      destruct (es_verdadero (error r')); [destruct Hs'|].
      destruct (diferencial r); [|destruct Hs].
      destruct (diferencial r'); [|destruct Hs'].
      rewrite map_map in Hs, Hs'. cbn [fst figura_lupa] in Hs, Hs'.
      apply in_map_iff in Hs as (row & <- & _).
      apply in_map_iff in Hs' as (row' & E & _).
      symmetry in E. now apply nombre_lupa_indice in E.
  - unfold mapa_diferencial_filenames.
    apply NoDup_flat_map_indices; [exact Hidx | |].
    + intros [k r] _. destruct (negb _); repeat constructor. intros [].
    + intros [k r] [k' r'] s _ _ Hs Hs'. cbn [fst snd] in *.
      destruct (negb (es_verdadero (error r))); [|destruct Hs].
      destruct (negb (es_verdadero (error r'))); [|destruct Hs'].
      destruct Hs as [<-|[]]. destruct Hs' as [E|[]].
      symmetry in E. now apply nombre_mapa_indice in E.
  - intros s Hs Hm.
    apply in_map_iff in Hs as (e & <- & He).
    apply in_flat_map in He as ([k r] & _ & He). unfold lupas_de in He.
    destruct (es_verdadero _); [destruct He|].
    destruct (diferencial _); [|destruct He].
    apply in_map_iff in He as (row & <- & _).
    unfold mapa_diferencial_filenames in Hm.
    apply in_flat_map in Hm as ([k' r'] & _ & Hm).
    destruct (negb _); [|destruct Hm].
    destruct Hm as [E|[]]. discriminate.
Qed.

(** ** Every magnifier figure of a run shows its candidate *)

Lemma prometedor_dentro_del_mapa (paths : list string) k r d row :
  (forall l, Permutation (ordenar_por_magnitud_desc l) l) ->
  nth_error (analizador paths) k = Some r -> error r = None ->
  diferencial r = Some d -> In row (filas (lista_prometedores r)) ->
  Coord_Y row < fst (shape d) /\ Coord_X row < snd (shape d).
Proof.
  intros Hperm Hk He Hd Hrow.
  destruct (exito_inv _ _ _ _ _ _ _ _ Hk He) as (d' & dfp & Hd' & _ & Hp & Hl).
  assert (d' = d) by congruence. subst d'. rewrite Hl in Hrow.
  rewrite (prometedores_ok _ _ Hp) in Hrow.
  apply (Permutation_in _ (Hperm _)) in Hrow. apply filter_In in Hrow as [Hrow _].
  apply In_resultados in Hrow as (j & _ & _ & Hc).
  apply In_where_gt in Hc as (Hy & Hx & _). auto.
Qed.

(** X11: when pandas' sort only rearranges the rows, every figure that
    [generate_picaser_lupas] saves for the analyser's list belongs to one
    promising row of one pairing that did not fail: its file name and its
    title are the ones of that pairing and that row, the row's coordinates
    lie inside the differential map of the pairing, and its image is the
    crop [d[y-15 : min(h, y+15), x-15 : min(w, x+15)]] of that map.  The
    crop has [min(h, y+15) - (y-15)] rows and [min(w, x+15) - (x-15)]
    columns, between 1 and 30 each; its cell [(i, j)] is the cell
    [(y-15+i, x-15+j)] of the map, and the cell at offset
    [(min(y, 15), min(x, 15))] is the candidate's own. *)
Theorem X11_cada_lupa_muestra_su_candidato (paths : list string) (w : Mundo) :
  (forall l, Permutation (ordenar_por_magnitud_desc l) l) ->
  exists figs,
    figuras (snd (generate_picaser_lupas (analizador paths) w)) = figuras w ++ figs /\
    Forall
      (fun e : string * Figura =>
         exists k r d row,
           nth_error (analizador paths) k = Some r /\ error r = None /\
           diferencial r = Some d /\
           In row (filas (lista_prometedores r)) /\
           fst e =
             ("lupa_picaser_comp" ++ str_nat (k + 1) ++ "_"
                ++ nombre_base (reference_file r) ++ "_vs_"
                ++ nombre_base (comparison_file r) ++ "_" ++ ID row ++ ".png")%string /\
           titulo (snd e) =
             ("HALLAZGO " ++ ID row ++ salto ++ "("
                ++ nombre_base (reference_file r) ++ " vs "
                ++ nombre_base (comparison_file r) ++ ")")%string /\
           Coord_Y row < fst (shape d) /\ Coord_X row < snd (shape d) /\
           imagen (snd e) =
             np_slice d (Coord_Y row - 15) (Nat.min (fst (shape d)) (Coord_Y row + 15))
                        (Coord_X row - 15) (Nat.min (snd (shape d)) (Coord_X row + 15)) /\
           shape (imagen (snd e)) =
             (Nat.min (fst (shape d)) (Coord_Y row + 15) - (Coord_Y row - 15),
              Nat.min (snd (shape d)) (Coord_X row + 15) - (Coord_X row - 15)) /\
           1 <= fst (shape (imagen (snd e))) <= 30 /\
           1 <= snd (shape (imagen (snd e))) <= 30 /\
           (forall i j,
              i < fst (shape (imagen (snd e))) -> j < snd (shape (imagen (snd e))) ->
              Coord_Y row - 15 + i < fst (shape d) /\
              Coord_X row - 15 + j < snd (shape d) /\
              fget (imagen (snd e)) i j =
                fget d (Coord_Y row - 15 + i) (Coord_X row - 15 + j)) /\
           fget (imagen (snd e)) (Nat.min (Coord_Y row) 15) (Nat.min (Coord_X row) 15) =
             fget d (Coord_Y row) (Coord_X row))
      figs.
Proof.
  intros Hperm. exists (flat_map lupas_de (enumerate (analizador paths))).
  split.
  - rewrite generate_picaser_lupas_ok. cbn [snd]. apply figuras_guardar_todo.
  - apply Forall_forall. intros e He.
    apply in_flat_map in He as ([k r] & Hin & He).
    apply In_enumerate in Hin. unfold lupas_de in He. cbn [fst snd] in He.
    destruct (proj1 (Forall_forall _ _) (analizador_de_analizador paths) r
                (nth_error_In _ _ Hin)) as [(pk & x & Herr)|(Herr & (d & Hd) & _)];
      rewrite Herr in He; [destruct He|].
    cbn [es_verdadero] in He. rewrite Hd in He.
    apply in_map_iff in He as (row & <- & Hrow).
    destruct (prometedor_dentro_del_mapa paths k row Hperm Hin Herr Hd Hrow)
      as [Hy Hx].
    destruct (zoom_de_spec d row Hy Hx) as (H1 & H2 & H3 & H4).
    exists k, r, d, row. cbn [fst snd figura_lupa imagen titulo].
    split; [exact Hin|]. split; [exact Herr|]. split; [exact Hd|].
    split; [exact Hrow|]. split; [reflexivity|]. split; [reflexivity|].
    split; [exact Hy|]. split; [exact Hx|]. split; [reflexivity|].
    split.
    { unfold zoom_de. rewrite np_slice_shape. f_equal; lia. }
    split; [exact H1|]. split; [exact H2|]. split; [exact H3 | exact H4].
Qed.

(** ** The differential map *)

Lemma abs_no_negativo (v : float) :
  PrimFloat.ltb (PrimFloat.abs v) 0%float = false.
Proof.
  rewrite FloatAxioms.ltb_spec, FloatAxioms.abs_spec.
  change (Prim2SF 0%float) with (SpecFloat.S754_zero false).
  destruct (Prim2SF v) as [s|s| |s m e]; reflexivity.
Qed.

Lemma diferencial_de_abs ref cmp d :
  diferencial_de gaussian_filter ref cmp = inr d ->
  exists resta, d = np_abs resta.
Proof.
  unfold diferencial_de.
  destruct (filtro_picaser gaussian_filter ref) as [e|nc]; [discriminate|].
  destruct (filtro_picaser gaussian_filter cmp) as [e|pc]; [discriminate|].
  destruct (np_subtract nc pc) as [e|resta]; [discriminate|].
  intros [= <-]. eauto.
Qed.

(** X12: no cell of the differential map of a dictionary the analyser
    returns is negative. *)
Theorem X12_diferencial_no_negativo
    (paths : list string) (k : nat) (r : ComparisonResult) (d : ndarray float)
    (y x : nat) :
  nth_error (analizador paths) k = Some r -> diferencial r = Some d ->
  y < fst (shape d) -> x < snd (shape d) ->
  PrimFloat.ltb (fget d y x) 0%float = false.
Proof.
  intros Hk Hd Hy Hx.
  apply nth_error_analizador in Hk as (p0 & ref & pk & _ & _ & _ & ->).
  rewrite iteracion_calculo in Hd. unfold calculo in Hd.
  destruct (fits_open_data pk) as [e|cmp]; [discriminate|].
  destruct (diferencial_de gaussian_filter ref cmp) as [e|d'] eqn:Ed;
    [discriminate|].
  destruct (prometedores_de _ _) as [e|dfp]; [discriminate|].
  cbn [diferencial] in Hd. injection Hd as ->.
  apply diferencial_de_abs in Ed as (resta & ->).
  unfold fget at 1, np_abs. unfold np_abs in Hy, Hx. cbn [shape np_build] in Hy, Hx.
  rewrite np_get_build by assumption. apply abs_no_negativo.
Qed.

End DelAnalizador.

(** ** The figure and report theorems at work on the demonstration run *)

(** A clean-up whose lists hold a missing name and a repeated one, in a
    directory that holds a sub-directory and a protected file the lists
    leave alone. *)
Lemma X1_cleanup_quita_los_temporales_demo :
  exists w',
    cleanup_temporary_files ["a.png"; "nada.png"; "a.png"]%string ["b.png"]%string
      "informe.pdf"%string mundo_con_directorio = (inr tt, w') /\
    figuras w' = figuras mundo_con_directorio /\
    (forall f, In f (["a.png"; "nada.png"; "a.png"]%string ++ ["b.png"]%string) ->
               os_path_exists w' f = false) /\
    (forall f, ~ In f (["a.png"; "nada.png"; "a.png"]%string ++ ["b.png"]%string) ->
               os_path_exists w' f = os_path_exists mundo_con_directorio f).
Proof.
  apply (@X1_cleanup_quita_los_temporales
           ["a.png"; "nada.png"; "a.png"]%string ["b.png"]%string
           "informe.pdf"%string mundo_con_directorio).
  intros f Hf Ef. cbn in Hf.
  destruct Hf as [<-|[<-|[<-|[<-|[]]]]]; solve [ split; reflexivity | discriminate Ef ].
Defined.

Lemma X2_lupa_recorta_demo :
  exists name fig w',
    lupa_de_fila 1 (nombre_base (reference_file resultado_nueva))
      (nombre_base (comparison_file resultado_nueva)) (Some mapa_nueva)
      (lista_prometedores resultado_nueva) fila_nueva mundo_demo =
      (inr name, w') /\
    figuras w' = figuras mundo_demo ++ [(name, fig)] /\
    os_path_exists w' name = true /\
    1 <= fst (shape (imagen fig)) <= 30 /\
    1 <= snd (shape (imagen fig)) <= 30 /\
    (forall i j, i < fst (shape (imagen fig)) -> j < snd (shape (imagen fig)) ->
       Coord_Y fila_nueva - 15 + i < fst (shape mapa_nueva) /\
       Coord_X fila_nueva - 15 + j < snd (shape mapa_nueva) /\
       fget (imagen fig) i j =
         fget mapa_nueva (Coord_Y fila_nueva - 15 + i) (Coord_X fila_nueva - 15 + j)) /\
    fget (imagen fig) (Nat.min (Coord_Y fila_nueva) 15)
                      (Nat.min (Coord_X fila_nueva) 15) =
      fget mapa_nueva (Coord_Y fila_nueva) (Coord_X fila_nueva).
Proof.
  apply (@X2_lupa_recorta_dentro_del_mapa 1 resultado_nueva mapa_nueva
           fila_nueva mundo_demo);
    solve [ reflexivity | cbn; lia ].
Defined.

Lemma nth_error_igual :
  nth_error (Ref.analizador archivos_demo 2026 paths_demo) 0 = Some resultado_igual.
Proof. vm_compute. reflexivity. Qed.

Lemma X5_informe_muestra_cada_error_demo :
  exists story w2 antes despues,
    story_multi fmt_2f_demo (Ref.analizador archivos_demo 2026 paths_demo)
      (snd (generate_picaser_lupas
              (Ref.analizador archivos_demo 2026 paths_demo) mundo_demo)) =
      (inr story, w2) /\
    story =
      antes ++
      [Paragraph
         ("<br/><br/><b>ERROR en Comparación " ++ str_nat (0 + 1) ++ ": "
            ++ os_path_basename (reference_file resultado_igual) ++ " vs "
            ++ os_path_basename (comparison_file resultado_igual) ++ "</b>")%string
         "h2"%string;
       Paragraph
         ("<i>" ++ "Error durante la comparación con igual.fits: 'Prometedor'"
            ++ "</i>")%string "Normal"%string;
       Spacer 1%float (PrimFloat.mul f0_2 inch)] ++ despues.
Proof.
  exact (@X5_informe_muestra_cada_error (Ref.fits_open_data archivos_demo)
           Ref.gaussian_filter Ref.np_std Ref.py_round 2026
           Ref.ordenar_por_magnitud_desc fmt_2f_demo paths_demo mundo_demo 0
           resultado_igual _ nth_error_igual eq_refl).
Defined.

Lemma X6_ejecucion_completa_demo :
  let run :=
    tras_la_entrada (Ref.fits_open_data archivos_demo) Ref.gaussian_filter
      Ref.np_std Ref.py_round 2026 Ref.ordenar_por_magnitud_desc fmt_2f_demo
      (fun _ => true) paths_demo mundo_demo in
  os_path_exists (snd run) final_pdf_name = true /\
  (forall f, In f (temporales (Ref.analizador archivos_demo 2026 paths_demo)) ->
             os_path_exists (snd run) f = false) /\
  (forall f, ~ In f (temporales (Ref.analizador archivos_demo 2026 paths_demo)) ->
             f <> final_pdf_name ->
             os_path_exists (snd run) f = os_path_exists mundo_demo f).
Proof.
  apply (@X6_ejecucion_completa_solo_deja_el_informe
           (Ref.fits_open_data archivos_demo) Ref.gaussian_filter Ref.np_std
           Ref.py_round 2026 Ref.ordenar_por_magnitud_desc fmt_2f_demo
           (fun _ => true) paths_demo mundo_demo).
  vm_compute. reflexivity.
Defined.


Lemma X8_entrada_de_rutas_demo :
  exists leidas,
    lineas_demo = leidas ++ ""%string :: ["igual.fits"%string] /\
    ["ref.fits"; "nueva.fits"]%string = filter (ruta_aceptada mundo_demo) leidas /\
    2 <= List.length ["ref.fits"; "nueva.fits"]%string /\
    Forall (fun p => os_path_exists mundo_demo p = true)
           ["ref.fits"; "nueva.fits"]%string /\
    (forall a b, leidas = a ++ ""%string :: b ->
                 List.length (filter (ruta_aceptada mundo_demo) a) < 2).
Proof.
  apply (@X8_entrada_de_rutas mundo_demo lineas_demo
           ["ref.fits"; "nueva.fits"]%string ["igual.fits"%string]).
  reflexivity.
Defined.

Lemma X10_nombres_distintos_demo :
  NoDup (temporales (Ref.analizador archivos_demo 2026 paths_demo)).
Proof.
  exact (@X10_nombres_distintos (Ref.fits_open_data archivos_demo)
           Ref.gaussian_filter Ref.np_std Ref.py_round 2026
           Ref.ordenar_por_magnitud_desc paths_demo ordenar_ref_perm).
Defined.

Lemma X11_cada_lupa_muestra_su_candidato_demo :
  exists figs,
    figuras (snd (generate_picaser_lupas
                    (Ref.analizador archivos_demo 2026 paths_demo) mundo_demo)) =
      figuras mundo_demo ++ figs /\
    Forall
      (fun e : string * Figura =>
         exists k r d row,
           nth_error (Ref.analizador archivos_demo 2026 paths_demo) k = Some r /\
           error r = None /\
           diferencial r = Some d /\
           In row (filas (lista_prometedores r)) /\
           fst e =
             ("lupa_picaser_comp" ++ str_nat (k + 1) ++ "_"
                ++ nombre_base (reference_file r) ++ "_vs_"
                ++ nombre_base (comparison_file r) ++ "_" ++ ID row ++ ".png")%string /\
           titulo (snd e) =
             ("HALLAZGO " ++ ID row ++ salto ++ "("
                ++ nombre_base (reference_file r) ++ " vs "
                ++ nombre_base (comparison_file r) ++ ")")%string /\
           Coord_Y row < fst (shape d) /\ Coord_X row < snd (shape d) /\
           imagen (snd e) =
             np_slice d (Coord_Y row - 15) (Nat.min (fst (shape d)) (Coord_Y row + 15))
                        (Coord_X row - 15) (Nat.min (snd (shape d)) (Coord_X row + 15)) /\
           shape (imagen (snd e)) =
             (Nat.min (fst (shape d)) (Coord_Y row + 15) - (Coord_Y row - 15),
              Nat.min (snd (shape d)) (Coord_X row + 15) - (Coord_X row - 15)) /\
           1 <= fst (shape (imagen (snd e))) <= 30 /\
           1 <= snd (shape (imagen (snd e))) <= 30 /\
           (forall i j,
              i < fst (shape (imagen (snd e))) -> j < snd (shape (imagen (snd e))) ->
              Coord_Y row - 15 + i < fst (shape d) /\
              Coord_X row - 15 + j < snd (shape d) /\
              fget (imagen (snd e)) i j =
                fget d (Coord_Y row - 15 + i) (Coord_X row - 15 + j)) /\
           fget (imagen (snd e)) (Nat.min (Coord_Y row) 15) (Nat.min (Coord_X row) 15) =
             fget d (Coord_Y row) (Coord_X row))
      figs.
Proof.
  exact (@X11_cada_lupa_muestra_su_candidato (Ref.fits_open_data archivos_demo)
           Ref.gaussian_filter Ref.np_std Ref.py_round 2026
           Ref.ordenar_por_magnitud_desc paths_demo mundo_demo ordenar_ref_perm).
Defined.

Lemma X12_diferencial_no_negativo_demo :
  PrimFloat.ltb (fget mapa_nueva 0 1) 0%float = false.
Proof.
  apply (@X12_diferencial_no_negativo (Ref.fits_open_data archivos_demo)
           Ref.gaussian_filter Ref.np_std Ref.py_round 2026
           Ref.ordenar_por_magnitud_desc paths_demo 1 resultado_nueva mapa_nueva
           0 1 nth_error_nueva eq_refl);
    cbn; lia.
Defined.
